(** * KramaBench leaderboard script: a shallow embedding and its properties

    The repository holds two variants of one browser script:
    - [src/script.js]: the single-file variant (rows keyed by [team], with
      runtime, date and paper link columns), modelled in [Module Script];
    - [src/unnamed/part_000]: the variant with the oracle-mode toggle and the
      search box (rows keyed by [System] and [Models]), modelled in
      [Module Part000].

    The JavaScript and DOM built-ins both variants call are modelled first, in
    [Module JS].  Strings are sequences of code units in the range
    U+0000..U+00FF (one [ascii] per code unit); a finite Number is a binary64
    value, kept as an integer count of units of 2^-1074. *)

From Stdlib Require Import ZArith Ascii DecimalString Sorted Permutation.
From stdpp Require Import gmap strings list fin_maps sorting.

(* ===================================================================== *)
(** * JavaScript and DOM built-ins *)
(* ===================================================================== *)

Module JS.

(** ** Strings *)

Definition code (c : ascii) : N := N_of_ascii c.

(** WhiteSpace and LineTerminator code units below U+0100: TAB, LF, VT, FF,
    CR, SP and NBSP. *)
Definition isWhiteSpace (c : ascii) : bool :=
  let n := code c in
  ((9 <=? n) && (n <=? 13) || (n =? 32) || (n =? 160))%N.

Fixpoint trimStart (s : string) : string :=
  match s with
  | EmptyString => EmptyString
  | String c s' => if isWhiteSpace c then trimStart s' else s
  end.

Fixpoint trimEnd (s : string) : string :=
  match s with
  | EmptyString => EmptyString
  | String c s' =>
      match trimEnd s' with
      | EmptyString => if isWhiteSpace c then EmptyString else String c EmptyString
      | r => String c r
      end
  end.

(** [String.prototype.trim] *)
Definition trim (s : string) : string := trimEnd (trimStart s).

(** Simple case mappings.  Within U+0000..U+00FF the lower-case mapping is
    closed: A-Z and U+00C0..U+00DE (without the multiplication sign U+00D7)
    move up by 32. *)
Definition lowerChar (c : ascii) : ascii :=
  let n := code c in
  if ((65 <=? n) && (n <=? 90) || (192 <=? n) && (n <=? 222) && negb (n =? 215))%N
  then ascii_of_N (n + 32) else c.

(** The upper-case mapping of a-z and U+00E0..U+00FE (without the division
    sign U+00F7) moves down by 32.  U+00B5 and U+00FF have upper-case forms
    outside U+0000..U+00FF and sharp s maps to two letters; [upperChar] is the
    per-code-unit canonicalisation of a case-insensitive RegExp, which keeps
    those three as they are. *)
Definition upperChar (c : ascii) : ascii :=
  let n := code c in
  if ((97 <=? n) && (n <=? 122) || (224 <=? n) && (n <=? 254) && negb (n =? 247))%N
  then ascii_of_N (n - 32) else c.

Fixpoint mapChars (f : ascii -> ascii) (s : string) : string :=
  match s with
  | EmptyString => EmptyString
  | String c s' => String (f c) (mapChars f s')
  end.

(** [String.prototype.toLowerCase] *)
Definition toLowerCase (s : string) : string := mapChars lowerChar s.

(** [String.prototype.toUpperCase] on a string of at most one code unit, as
    [charAt(0).toUpperCase()] uses it: sharp s becomes "SS"; U+00B5 and
    U+00FF, whose upper-case forms lie outside the modelled range, are kept. *)
Definition toUpperCase1 (s : string) : string :=
  match s with
  | String c EmptyString =>
      if (code c =? 223)%N then "SS" else String (upperChar c) EmptyString
  | _ => mapChars upperChar s
  end.

(** [s.charAt(0)] and [s.slice(1)] *)
Definition charAt0 (s : string) : string :=
  match s with
  | EmptyString => EmptyString
  | String c _ => String c EmptyString
  end.

Definition slice1 (s : string) : string :=
  match s with
  | EmptyString => EmptyString
  | String _ s' => s'
  end.

Fixpoint startsWith (p s : string) : bool :=
  match p, s with
  | EmptyString, _ => true
  | String a p', String b s' => if Ascii.eqb a b then startsWith p' s' else false
  | String _ _, EmptyString => false
  end.

(** [String.prototype.includes] *)
Fixpoint includes (s p : string) : bool :=
  startsWith p s ||
  match s with
  | EmptyString => false
  | String _ s' => includes s' p
  end.

(** Truthiness of a string value: only the empty string is falsy. *)
Definition truthy (s : string) : bool :=
  match s with EmptyString => false | _ => true end.

(** [x || ''] and [x && ...] on a property that may be [undefined]. *)
Definition orEmpty (o : option string) : string := default "" o.

Definition nonBlank (o : option string) : bool :=
  match o with
  | Some s => truthy s && negb (String.eqb (trim s) "")
  | None => false
  end.

(** Template-literal interpolation of a property that may be [undefined]. *)
Definition interpolate (o : option string) : string := default "undefined" o.

(** ** Numbers *)

(** A Number.  Every finite binary64 value is an integer multiple of 2^-1074:
    [Fin k] stands for k * 2^-1074.  The two zeros are one value here; the
    scripts never observe the sign of a zero ([-0 >= 0] holds, [-0 || 0] is 0,
    and [isNaN(-0)] is false). *)
Inductive number : Type :=
| NaN
| PosInf
| NegInf
| Fin (k : Z).

#[global] Instance number_eq_dec : EqDecision number.
Proof. solve_decision. Defined.

Local Open Scope Z_scope.

Definition unit_exp : Z := 1074.

(** The integer [n] as a count of units. *)
Definition ofZ (n : Z) : Z := n * 2 ^ unit_exp.

(** Round the non-negative rational [num / den] to the nearest integer, ties
    to even. *)
Definition round_half_even (num den : Z) : Z :=
  let q := num / den in
  match 2 * (num mod den) ?= den with
  | Lt => q
  | Gt => q + 1
  | Eq => if Z.even q then q else q + 1
  end.

(** Round the non-negative rational [num / den], counted in units of 2^-1074,
    to binary64 (round to nearest, ties to even).  Below 2^53 units the
    representable values are the integers; from there on they have 53
    significant bits.  What rounds to 2^1024 or more overflows. *)
Definition round_units (num den : Z) : option Z :=
  let q := num / den in
  let shift := if q <? 2 ^ 53 then 0 else Z.log2 q - 52 in
  let k := round_half_even num (den * 2 ^ shift) * 2 ^ shift in
  if k <? 2 ^ (1024 + unit_exp) then Some k else None.

(** The binary64 value nearest to [(-1)^neg * num / den] units. *)
Definition round_binary64 (neg : bool) (num den : Z) : number :=
  match round_units num den with
  | Some k => Fin (if neg then - k else k)
  | None => if neg then NegInf else PosInf
  end.

(** [x - y] *)
Definition sub (x y : number) : number :=
  match x, y with
  | NaN, _ | _, NaN => NaN
  | PosInf, PosInf | NegInf, NegInf => NaN
  | PosInf, _ | _, NegInf => PosInf
  | NegInf, _ | _, PosInf => NegInf
  | Fin a, Fin b => round_binary64 (a - b <? 0) (Z.abs (a - b)) 1
  end.

(** [isNaN(x)], [x >= 0], [x > 0] and [x < y] *)
Definition isNaN (x : number) : bool :=
  match x with NaN => true | _ => false end.

Definition ge0 (x : number) : bool :=
  match x with
  | NaN | NegInf => false
  | PosInf => true
  | Fin k => 0 <=? k
  end.

Definition gt0 (x : number) : bool :=
  match x with
  | NaN | NegInf => false
  | PosInf => true
  | Fin k => 0 <? k
  end.

Definition ltb (x y : number) : bool :=
  match x, y with
  | NaN, _ | _, NaN => false
  | _, NegInf | PosInf, _ => false
  | NegInf, _ | _, PosInf => true
  | Fin a, Fin b => a <? b
  end.

(** [x || 0]: NaN and zero are falsy. *)
Definition or0 (x : number) : number :=
  match x with
  | NaN => Fin 0
  | _ => x
  end.

(** ** parseFloat *)

Definition digit (c : ascii) : option Z :=
  let n := code c in
  if ((48 <=? n) && (n <=? 57))%N then Some (Z.of_N n - 48) else None.

(** Read the longest run of decimal digits at the head of [s]: the value
    accumulated onto [acc], the number of digits read, and the rest. *)
Fixpoint readDigits (s : string) (acc : Z) (n : Z) : Z * Z * string :=
  match s with
  | EmptyString => (acc, n, s)
  | String c s' =>
      match digit c with
      | Some d => readDigits s' (10 * acc + d) (n + 1)
      | None => (acc, n, s)
      end
  end.

(** The ExponentPart at the head of [s], or 0 when there is none. *)
Definition readExponent (s : string) : Z :=
  match s with
  | String c s' =>
      if (code c =? 101)%N || (code c =? 69)%N then
        let '(neg, s'') :=
          match s' with
          | String "-" t => (true, t)
          | String "+" t => (false, t)
          | _ => (false, s')
          end in
        let '(e, n, _) := readDigits s'' 0 0 in
        if n =? 0 then 0 else if neg then - e else e
      else 0
  | EmptyString => 0
  end.

(** The value of the longest prefix of [s] that is a
    StrUnsignedDecimalLiteral, with the sign [neg] applied. *)
Definition parseUnsigned (neg : bool) (s : string) : number :=
  if startsWith "Infinity" s then (if neg then NegInf else PosInf)
  else
    let '(ip, ni, r1) := readDigits s 0 0 in
    let '(m, nf, r2) :=
      match r1 with
      | String "." r => readDigits r ip 0
      | _ => (ip, 0, r1)
      end in
    if ni + nf =? 0 then NaN
    else
      let e := readExponent r2 - nf in
      if 0 <=? e
      then round_binary64 neg (m * 10 ^ e * 2 ^ unit_exp) 1
      else round_binary64 neg (m * 2 ^ unit_exp) (10 ^ (- e)).

Definition parseFloatString (s : string) : number :=
  match trimStart s with
  | String "-" t => parseUnsigned true t
  | String "+" t => parseUnsigned false t
  | t => parseUnsigned false t
  end.

(** [parseFloat(v)] for a property value [v] that may be [undefined]: the
    argument is first converted to a string. *)
Definition parseFloat (v : option string) : number :=
  parseFloatString (interpolate v).

(** ** Number.prototype.toFixed *)

(** The decimal digits of a non-negative integer. *)
Definition digits (n : Z) : string :=
  NilZero.string_of_uint (N.to_uint (Z.to_N n)).

Fixpoint zeros (n : nat) : string :=
  match n with
  | O => EmptyString
  | S n' => String "0" (zeros n')
  end.

Fixpoint dropTrailingZeros (s : string) : string :=
  match s with
  | EmptyString => EmptyString
  | String c s' =>
      match dropTrailingZeros s' with
      | EmptyString => if Ascii.eqb c "0" then EmptyString else String c EmptyString
      | r => String c r
      end
  end.

(** Does the integer [c] convert to the binary64 value of [k] units? *)
Definition roundTrips (c k : Z) : bool :=
  match round_units (c * 2 ^ unit_exp) 1 with
  | Some k' => k' =? k
  | None => false
  end.

(** The integer with the fewest significant digits ([kd], [kd + 1], ...)
    that converts to the value [k] units, the closest to the exact value [X]
    when two candidates of that length do; [n] is the number of digits of
    [X]. *)
Fixpoint shortestDecimal (fuel : nat) (kd n X k : Z) : Z :=
  match fuel with
  | O => X
  | S fuel' =>
      let p := 10 ^ (n - kd) in
      let lo := X / p * p in
      let hi := lo + p in
      match roundTrips lo k, roundTrips hi k with
      | true, true =>
          if X - lo <? hi - X then lo
          else if hi - X <? X - lo then hi
          else if Z.even (X / p) then lo else hi
      | true, false => lo
      | false, true => hi
      | false, false => shortestDecimal fuel' (kd + 1) n X k
      end
  end.

(** Number::toString for a finite value of at least 10^21: the shortest
    digit string that converts back, in exponential notation. *)
Definition toStringLarge (k : Z) : string :=
  let X := k / 2 ^ unit_exp in
  let n := Z.of_nat (String.length (digits X)) in
  let all := digits (shortestDecimal 17 1 n X k) in
  let e := digits (Z.of_nat (String.length all) - 1) in
  match dropTrailingZeros all with
  | String d EmptyString => String d EmptyString +:+ "e+" +:+ e
  | String d ds => String d EmptyString +:+ "." +:+ ds +:+ "e+" +:+ e
  | EmptyString => all
  end.

(** [x.toFixed(f)] for a finite [x >= 0] of [k] units: the integer [n] with
    [n / 10^f] nearest to [x] (the larger one on a tie), with a decimal point
    before its last [f] digits. *)
Definition toFixedUnits (f : nat) (k : Z) : string :=
  if 10 ^ 21 * 2 ^ unit_exp <=? k then toStringLarge k
  else
    let n := (2 * k * 10 ^ Z.of_nat f + 2 ^ unit_exp) / 2 ^ (unit_exp + 1) in
    let m := digits n in
    match f with
    | O => m
    | _ =>
        let m' := zeros (f + 1 - String.length m) +:+ m in
        let a := (String.length m' - f)%nat in
        String.substring 0 a m' +:+ "." +:+ String.substring a f m'
    end.

Definition toFixed (f : nat) (x : number) : string :=
  match x with
  | NaN => "NaN"
  | PosInf => "Infinity"
  | NegInf => "-Infinity"
  | Fin k => if k <? 0 then "-" +:+ toFixedUnits f (- k) else toFixedUnits f k
  end.

(** ** Array.prototype.sort *)

(** [sort gt l] is [l.sort(cmp)] where [gt a b] tells whether [cmp(a, b)] is
    a positive number (a NaN result counts as zero).  The sort is stable: an
    element moves behind another one only when the comparator says it is
    greater.  Each element is inserted into the sorted rest of the array. *)
Fixpoint insert {A : Type} (gt : A -> A -> bool) (x : A) (l : list A) : list A :=
  match l with
  | [] => [x]
  | y :: l' => if gt x y then y :: insert gt x l' else x :: l
  end.

Definition sort {A : Type} (gt : A -> A -> bool) (l : list A) : list A :=
  foldr (insert gt) [] l.

(** ** The DOM: serialising text, and the nodes of a table body *)

(** The markup of a text node ([div.textContent = s; div.innerHTML]): the
    HTML fragment serialisation replaces the ampersand, the no-break space
    and the two angle brackets, and nothing else. *)
Definition escapeChar (c : ascii) : string :=
  if Ascii.eqb c "&" then "&amp;"
  else if (code c =? 160)%N then "&nbsp;"
  else if Ascii.eqb c "<" then "&lt;"
  else if Ascii.eqb c ">" then "&gt;"
  else String c EmptyString.

Fixpoint serializeText (s : string) : string :=
  match s with
  | EmptyString => EmptyString
  | String c s' => escapeChar c +:+ serializeText s'
  end.

(** A child of the table body: what an assignment to [tbody.innerHTML] left
    there (kept as the markup assigned), or a [tr] element the script built
    and appended. *)
Inductive node : Type :=
| Markup (html : string)
| Tr (classList : list string) (innerHTML : string).

Definition setInnerHTML (html : string) : list node :=
  if truthy html then [Markup html] else [].

(** A thrown value, with its [message] property. *)
Record error : Type := Error { message : string }.

(** ** RegExp: the modelled fragment *)

(** A pattern of the fragment is a non-empty sequence of atoms: a character
    that stands for itself, or the dot.  Any other syntax character puts the
    pattern outside the fragment. *)
Inductive atom : Type :=
| Lit (c : ascii)
| AnyChar.

Definition syntaxChar (c : ascii) : bool :=
  existsb (Ascii.eqb c)
    ["^"; "$"; "\"; "."; "*"; "+"; "?"; "("; ")"; "["; "]"; "{"; "}"; "|"]%char.

Fixpoint atoms (p : string) : option (list atom) :=
  match p with
  | EmptyString => Some []
  | String c p' =>
      rest ← atoms p';
      if Ascii.eqb c "." then Some (AnyChar :: rest)
      else if syntaxChar c then None
      else Some (Lit c :: rest)
  end.

(** [new RegExp("(" + p + ")", "gi")]: one capturing group around [p];
    [None] when [p] is outside the fragment. *)
Definition groupRegExp (p : string) : option (list atom) :=
  match atoms p with
  | Some (a :: l) => Some (a :: l)
  | _ => None
  end.

(** With the [i] flag two characters match when their canonical (upper-case)
    forms agree; the dot matches all but the line terminators. *)
Definition atomMatches (a : atom) (c : ascii) : bool :=
  match a with
  | Lit p => Ascii.eqb (upperChar p) (upperChar c)
  | AnyChar => negb ((code c =? 10) || (code c =? 13))%N
  end.

Fixpoint matchesAt (pat : list atom) (s : string) : bool :=
  match pat, s with
  | [], _ => true
  | a :: pat', String c s' => atomMatches a c && matchesAt pat' s'
  | _ :: _, EmptyString => false
  end.

(** [s.replace(regex, "<mark>$1</mark>")] for a global regex of the
    fragment: scanning from the left, each match is wrapped and the scan
    resumes behind it.  [skip] counts the characters of the current match
    still to be passed over. *)
Fixpoint markFrom (pat : list atom) (skip : nat) (s : string) : string :=
  match s with
  | EmptyString => EmptyString
  | String c s' =>
      match skip with
      | S k => markFrom pat k s'
      | O =>
          if matchesAt pat s
          then "<mark>" +:+ String.substring 0 (length pat) s +:+ "</mark>"
                 +:+ markFrom pat (length pat - 1) s'
          else String c (markFrom pat 0 s')
      end
  end.

Definition replaceWithMark (pat : list atom) (s : string) : string :=
  markFrom pat 0 s.

(** ** Notions the properties are stated with *)

(** The characters of [s] that satisfy [f], in order. *)
Fixpoint keepChars (f : ascii -> bool) (s : string) : string :=
  match s with
  | EmptyString => EmptyString
  | String c s' => if f c then String c (keepChars f s') else keepChars f s'
  end.

(** The double and the single quote. *)
Definition isQuote (c : ascii) : bool :=
  Ascii.eqb c "034" || Ascii.eqb c "'".




End JS.

Import JS.

(* ===================================================================== *)
(** * What the two variants share *)
(* ===================================================================== *)

(** A submission row, as the CSV parser hands it over: an object from column
    names to strings.  A lookup of an absent column is [undefined]. *)
Abbreviation row := (gmap string string).

Definition dq : string := String "034" EmptyString.
Definition LF : string := String "010" EmptyString.

(** The decimal form of an array index or length. *)
Definition natToString (n : nat) : string := digits (Z.of_nat n).

(** [escapeHtml(text)] (the same function in both files): the text goes into
    a fresh [div] as its [textContent] and comes back as [innerHTML].  An
    [undefined] argument sets an empty text. *)
Definition escapeHtml (text : option string) : string :=
  serializeText (default "" text).

(** The message row both variants write into the table body. *)
Definition messageRow (colspan text : string) : string :=
  "<tr><td colspan=" +:+ dq +:+ colspan +:+ dq +:+ " style=" +:+ dq
    +:+ "text-align: center; color: #dc3545;" +:+ dq +:+ ">" +:+ text
    +:+ "</td></tr>".

(** The [TypeError] of [tbody.innerHTML = ...] when the page has no table
    body ([querySelector] gave [null]). *)
Definition nullTbody : error :=
  Error "Cannot set properties of null (setting 'innerHTML')".

(** The row the [catch] block of [loadLeaderboard] writes. *)
Definition errorRow (colspan : string) (e : error) : string :=
  messageRow colspan ("Error loading leaderboard data: " +:+ message e).

Section Dates.

(** [Date.parse] accepts the ISO format and, beyond it, whatever the engine
    chooses to; the locale formatting is the engine's as well.  Both are
    parameters: [Date_parse s] is [None] when [s] does not parse (the time
    value is NaN). *)
Context {time : Type}.
Variable Date_parse : string -> option time.
Variable toLocaleDateString : time -> string.

(** [new Date(dateString)]: an [undefined] argument gives an invalid date. *)
Definition newDate (dateString : option string) : option time :=
  dateString ≫= Date_parse.

(** [date.toLocaleDateString('en-US', {...})]: an invalid date formats as
    the text "Invalid Date"; nothing is thrown. *)
Definition dateToLocaleDateString (date : option time) : error + string :=
  inr (match date with
       | Some t => toLocaleDateString t
       | None => "Invalid Date"
       end).

(** [formatDate(dateString)]: the [catch] branch returns the argument. *)
Definition formatDate (dateString : option string) : option string :=
  match dateToLocaleDateString (newDate dateString) with
  | inr text => Some text
  | inl _ => dateString
  end.

End Dates.

(* ===================================================================== *)
(** * src/script.js: the single-file variant *)
(* ===================================================================== *)

Module Script.

Record page : Type := Page {
  tbody : option (list node);     (* #leaderboard-table tbody *)
  topPerformersStyles : bool      (* #top-performers-styles is in the head *)
}.

Record state : Type := State {
  leaderboardData : list row;
  currentDomain : string;
  document : page
}.

Definition setTbody (children : list node) (s : state) : state :=
  State (leaderboardData s) (currentDomain s)
    (Page (Some children) (topPerformersStyles (document s))).

Definition setLeaderboardData (data : list row) (s : state) : state :=
  State data (currentDomain s) (document s).

Definition setCurrentDomain (domain : string) (s : state) : state :=
  State (leaderboardData s) domain (document s).

Inductive result : Type :=
| Done (s : state)
| Threw (e : error) (s : state).

Definition writeTbody (html : string) (s : state) : result :=
  match tbody (document s) with
  | Some _ => Done (setTbody (setInnerHTML html) s)
  | None => Threw nullTbody s
  end.

(** [parseFloat(entry[domain])] *)
Definition score (domain : string) (entry : row) : number :=
  parseFloat (entry !! domain).

Definition hasScore (domain : string) (entry : row) : bool :=
  negb (isNaN (score domain entry)) && ge0 (score domain entry).

Definition validData (data : list row) (domain : string) : list row :=
  List.filter (hasScore domain) data.

Definition byScore (domain : string) (a b : row) : number :=
  let scoreA := or0 (score domain a) in
  let scoreB := or0 (score domain b) in
  sub scoreB scoreA.

Definition sortedData (data : list row) (domain : string) : list row :=
  sort (fun a b => gt0 (byScore domain a b)) (validData data domain).

(** The rows a render shows, each with its rank [i + 1]. *)
Definition rankedRows (data : list row) (domain : string) : list (nat * row) :=
  imap (fun i entry => (S i, entry)) (sortedData data domain).

Definition rankClass (rank : nat) : list string :=
  if (rank <=? 3)%nat then ["rank-" +:+ natToString rank] else [].

(** The page emoji U+1F4C4 of the link cell lies outside the modelled range
    of code units; it is written as its character reference. *)
Definition paperIcon : string := "&#128196;".

Definition addTopPerformersStyling (s : state) : state :=
  if topPerformersStyles (document s) then s
  else State (leaderboardData s) (currentDomain s) (Page (tbody (document s)) true).

Section Render.

Context {time : Type}.
Variable Date_parse : string -> option time.
Variable toLocaleDateString : time -> string.

Definition renderEntry (domain : string) (rank : nat) (entry : row) : node :=
  let shown := or0 (score domain entry) in
  let runtime := or0 (parseFloat (entry !! "runtime")) in
  Tr (rankClass rank)
    (LF +:+ "      <td>" +:+ natToString rank +:+ "</td>"
     +:+ LF +:+ "      <td>" +:+ escapeHtml (entry !! "team") +:+ "</td>"
     +:+ LF +:+ "      <td>" +:+ toFixed 1 shown +:+ "%</td>"
     +:+ LF +:+ "      <td>" +:+ toFixed 1 runtime +:+ "s</td>"
     +:+ LF +:+ "      <td>"
     +:+ interpolate (formatDate Date_parse toLocaleDateString (entry !! "date"))
     +:+ "</td>"
     +:+ LF +:+ "      <td><a href=" +:+ dq +:+ escapeHtml (entry !! "paper_url") +:+ dq
     +:+ " target=" +:+ dq +:+ "_blank" +:+ dq
     +:+ " title=" +:+ dq +:+ "View paper" +:+ dq +:+ ">" +:+ paperIcon +:+ "</a></td>"
     +:+ LF +:+ "    ").

(** [displayLeaderboard(domain)] *)
Definition displayLeaderboard (domain : string) (s : state) : result :=
  match leaderboardData s with
  | [] => writeTbody (messageRow "6" "No data available") s
  | _ :: _ =>
      match validData (leaderboardData s) domain with
      | [] => writeTbody (messageRow "6" "No data available for this domain") s
      | _ :: _ =>
          match writeTbody "" s with
          | Done s1 =>
              Done (addTopPerformersStyling
                      (setTbody
                         (map (fun r => renderEntry domain r.1 r.2)
                            (rankedRows (leaderboardData s) domain)) s1))
          | r => r
          end
      end
  end.

(** The load-time filter: "only require team name". *)
Definition keptAtLoad (d : row) : bool := nonBlank (d !! "team").

Inductive fetched : Type :=
| Rejected (e : error)
| Responded (ok : bool) (status : nat) (text : error + string).

(** The [catch] block. *)
Definition showLoadError (e : error) (s : state) : state :=
  match tbody (document s) with
  | Some _ =>
      setTbody
        (setInnerHTML
           (errorRow "6" e)) s
  | None => s
  end.

Variable Papa_parse : string -> error + list row.

(** [loadLeaderboard()] fetches one fixed resource. *)
Definition loadLeaderboard_request : string := "data/leaderboard.csv".

(** The ways a load fails before it stores a dataset, each with the value
    the [catch] block receives. *)
Inductive loadFails : fetched → error → Prop :=
| network_rejection e :
    loadFails (Rejected e) e
| http_status status text :
    loadFails (Responded false status text)
      (Error ("HTTP error! status: " +:+ natToString status))
| body_rejection status e :
    loadFails (Responded true status (inl e)) e
| parse_exception status csvText e :
    Papa_parse csvText = inl e →
    loadFails (Responded true status (inr csvText)) e.

Definition loadLeaderboard_settle (r : fetched) (s : state) : state :=
  match r with
  | Rejected e => showLoadError e s
  | Responded false status _ =>
      showLoadError (Error ("HTTP error! status: " +:+ natToString status)) s
  | Responded true _ (inl e) => showLoadError e s
  | Responded true _ (inr csvText) =>
      match Papa_parse csvText with
      | inl e => showLoadError e s
      | inr data =>
          let s1 := setLeaderboardData (List.filter keptAtLoad data) s in
          match displayLeaderboard (currentDomain s1) s1 with
          | Done s2 => s2
          | Threw e s2 => showLoadError e s2
          end
      end
  end.

(** The [change] listener of the domain selector. *)
Definition onDomainChange (value : string) (s : state) : result :=
  displayLeaderboard value (setCurrentDomain value s).

End Render.

End Script.

(* ===================================================================== *)
(** * src/unnamed/part_000: oracle toggle and search *)
(* ===================================================================== *)

Module Part000.

(** The elements of the page the script reaches for; [None] where
    [querySelector] finds nothing. *)
Record page : Type := Page {
  tbody : option (list node);               (* #leaderboard-table tbody *)
  filterStatus : option (string * string);  (* #filter-status: textContent, style.display *)
  heading : option string;                  (* .leaderboard-section h2: textContent *)
  oracleToggle : bool;                      (* #oracle-toggle: checked *)
  pulse : bool;                             (* .toggle-container has class pulse *)
  topPerformersStyles : bool                (* #top-performers-styles is in the head *)
}.

(** The global variables and the page. *)
Record state : Type := State {
  leaderboardData : list row;
  currentDomain : string;
  isOracleMode : bool;
  currentSearchTerm : string;
  document : page
}.

Definition setTbody (children : list node) (d : page) : page :=
  Page (Some children) (filterStatus d) (heading d) (oracleToggle d) (pulse d)
    (topPerformersStyles d).

Definition setFilterStatus (f : option (string * string)) (d : page) : page :=
  Page (tbody d) f (heading d) (oracleToggle d) (pulse d) (topPerformersStyles d).

Definition setHeading (h : option string) (d : page) : page :=
  Page (tbody d) (filterStatus d) h (oracleToggle d) (pulse d) (topPerformersStyles d).

Definition setOracleToggle (c : bool) (d : page) : page :=
  Page (tbody d) (filterStatus d) (heading d) c (pulse d) (topPerformersStyles d).

Definition setPulse (b : bool) (d : page) : page :=
  Page (tbody d) (filterStatus d) (heading d) (oracleToggle d) b (topPerformersStyles d).

Definition setDocument (d : page) (s : state) : state :=
  State (leaderboardData s) (currentDomain s) (isOracleMode s) (currentSearchTerm s) d.

Definition setLeaderboardData (data : list row) (s : state) : state :=
  State data (currentDomain s) (isOracleMode s) (currentSearchTerm s) (document s).

Definition setCurrentDomain (domain : string) (s : state) : state :=
  State (leaderboardData s) domain (isOracleMode s) (currentSearchTerm s) (document s).

Definition setIsOracleMode (b : bool) (s : state) : state :=
  State (leaderboardData s) (currentDomain s) b (currentSearchTerm s) (document s).

Definition setCurrentSearchTerm (term : string) (s : state) : state :=
  State (leaderboardData s) (currentDomain s) (isOracleMode s) term (document s).

(** How a call ends: normally, by a throw, or outside the model (the search
    term is a RegExp pattern beyond the fragment of [JS.groupRegExp]). *)
Inductive result : Type :=
| Done (s : state)
| Threw (e : error) (s : state)
| Unmodelled.

(** [tbody.innerHTML = html] on the element [querySelector] returned. *)
Definition writeTbody (html : string) (s : state) : result :=
  match tbody (document s) with
  | Some _ => Done (setDocument (setTbody (setInnerHTML html) (document s)) s)
  | None => Threw nullTbody s
  end.

(** ** displayLeaderboard: the ranking *)

(** [domain.charAt(0).toUpperCase() + domain.slice(1)] *)
Definition adjustedDomain (domain : string) : string :=
  toUpperCase1 (charAt0 domain) +:+ slice1 domain.

(** [parseFloat(entry[adjustedDomain])] *)
Definition score (adjusted : string) (entry : row) : number :=
  parseFloat (entry !! adjusted).

(** The filter "has a score for this domain". *)
Definition hasScore (adjusted : string) (entry : row) : bool :=
  negb (isNaN (score adjusted entry)) && ge0 (score adjusted entry).

(** [searchTerm && searchTerm.trim() !== ''] *)
Definition searching (searchTerm : string) : bool :=
  truthy searchTerm && negb (String.eqb (trim searchTerm) "").

Definition matchesSearch (searchTerm : string) (entry : row) : bool :=
  let normalizedSearchTerm := toLowerCase (trim searchTerm) in
  let system := toLowerCase (orEmpty (entry !! "System")) in
  let model := toLowerCase (orEmpty (entry !! "Models")) in
  includes system normalizedSearchTerm || includes model normalizedSearchTerm.

Definition validData (data : list row) (adjusted searchTerm : string) : list row :=
  let valid := List.filter (hasScore adjusted) data in
  if searching searchTerm then List.filter (matchesSearch searchTerm) valid else valid.

(** The comparator [scoreB - scoreA]. *)
Definition byScore (adjusted : string) (a b : row) : number :=
  let scoreA := or0 (score adjusted a) in
  let scoreB := or0 (score adjusted b) in
  sub scoreB scoreA.

Definition allValidData (data : list row) (adjusted : string) : list row :=
  sort (fun a b => gt0 (byScore adjusted a b)) (List.filter (hasScore adjusted) data).

Definition uniqueId (adjusted : string) (entry : row) : string :=
  interpolate (entry !! "System") +:+ "-" +:+ interpolate (entry !! "Models")
    +:+ "-" +:+ toFixed 3 (or0 (score adjusted entry)).

(** The [forEach] that fills the map: the entry at [index] is stored under
    its identifier with [index + 1]; a later entry with the same identifier
    overwrites. *)
Fixpoint setRanks (adjusted : string) (index : nat) (entries : list row)
    (m : gmap string nat) : gmap string nat :=
  match entries with
  | [] => m
  | entry :: rest =>
      setRanks adjusted (S index) rest (<[uniqueId adjusted entry := S index]> m)
  end.

Definition originalRankMap (data : list row) (adjusted : string) : gmap string nat :=
  setRanks adjusted 0 (allValidData data adjusted) ∅.

(** [originalRankMap.get(id) || 999] *)
Definition rankOr999 (m : gmap string nat) (id : string) : nat :=
  match m !! id with
  | Some (S r) => S r
  | _ => 999
  end.

(** The comparator of the second sort. *)
Definition byRankOrScore (searchTerm adjusted : string) (m : gmap string nat)
    (a b : row) : number :=
  if searching searchTerm then
    let rankA := rankOr999 m (uniqueId adjusted a) in
    let rankB := rankOr999 m (uniqueId adjusted b) in
    Fin (ofZ (Z.of_nat rankA - Z.of_nat rankB))
  else byScore adjusted a b.

Definition sortedData (data : list row) (adjusted searchTerm : string) : list row :=
  sort (fun a b => gt0 (byRankOrScore searchTerm adjusted (originalRankMap data adjusted) a b))
    (validData data adjusted searchTerm).

(** The rank looked up for a displayed entry ([undefined] when absent). *)
Definition originalRank (data : list row) (adjusted : string) (entry : row) : option nat :=
  originalRankMap data adjusted !! uniqueId adjusted entry.

(** The rows a render shows, in order, each with the rank it is shown with. *)
Definition rankedRows (data : list row) (domain searchTerm : string)
    : list (option nat * row) :=
  let adjusted := adjustedDomain domain in
  map (fun entry => (originalRank data adjusted entry, entry))
    (sortedData data adjusted searchTerm).

(** ** displayLeaderboard: the table *)

(** The status line above the table. *)
Definition updateFilterStatus (searchTerm : string) (shown : nat) (d : page) : page :=
  match filterStatus d with
  | Some (textContent, display) =>
      if searching searchTerm
      then setFilterStatus
             (Some ("Showing " +:+ natToString shown
                      +:+ " filtered results with original rankings", "block")) d
      else setFilterStatus (Some (textContent, "none")) d
  | None => d
  end.

(** The highlighting of one cell: the trimmed search term, escaped, becomes
    the source of a RegExp. *)
Definition highlight (searchTerm text : string) : option string :=
  if searching searchTerm then
    regex ← groupRegExp (escapeHtml (Some (trim searchTerm)));
    Some (replaceWithMark regex text)
  else Some text.

Definition rankClass (rank : option nat) : list string :=
  match rank with
  | Some r => if (r <=? 3)%nat then ["rank-" +:+ natToString r] else []
  | None => []
  end.

Definition rankText (rank : option nat) : string :=
  match rank with
  | Some r => natToString r
  | None => "undefined"
  end.

(** The body of the [forEach] over the sorted entries: one [tr]. *)
Definition renderEntry (searchTerm adjusted : string) (rank : option nat)
    (entry : row) : option node :=
  let shown := or0 (score adjusted entry) in
  systemText ← highlight searchTerm (escapeHtml (entry !! "System"));
  modelText ← highlight searchTerm (escapeHtml (entry !! "Models"));
  Some (Tr (rankClass rank)
          (LF +:+ "      <td>" +:+ rankText rank +:+ "</td>"
           +:+ LF +:+ "      <td>" +:+ systemText +:+ "</td>"
           +:+ LF +:+ "      <td>" +:+ modelText +:+ "</td>"
           +:+ LF +:+ "      <td>" +:+ toFixed 1 shown +:+ "%</td>"
           +:+ LF +:+ "    ")).

Definition renderRows (searchTerm adjusted : string) (rows : list (option nat * row))
    : option (list node) :=
  mapM (fun r => renderEntry searchTerm adjusted r.1 r.2) rows.

(** [addTopPerformersStyling()]: the style element goes into the head unless
    it is there already. *)
Definition addTopPerformersStyling (s : state) : state :=
  let d := document s in
  if topPerformersStyles d then s
  else setDocument
         (Page (tbody d) (filterStatus d) (heading d) (oracleToggle d) (pulse d) true) s.

(** [displayLeaderboard(domain, searchTerm = currentSearchTerm)] *)
Definition displayLeaderboard (domain : string) (searchTermArg : option string)
    (s : state) : result :=
  let searchTerm := default (currentSearchTerm s) searchTermArg in
  match leaderboardData s with
  | [] => writeTbody (messageRow "4" "No data available") s
  | _ :: _ =>
      let s1 := setCurrentSearchTerm searchTerm s in
      let adjusted := adjustedDomain domain in
      let valid := validData (leaderboardData s1) adjusted searchTerm in
      let s2 := setDocument (updateFilterStatus searchTerm (length valid) (document s1)) s1 in
      match valid with
      | [] => writeTbody (messageRow "4" "No matching results found") s2
      | _ :: _ =>
          match writeTbody "" s2 with
          | Done s3 =>
              match renderRows searchTerm adjusted
                      (rankedRows (leaderboardData s1) domain searchTerm) with
              | Some trs =>
                  Done (addTopPerformersStyling
                          (setDocument (setTbody trs (document s3)) s3))
              | None => Unmodelled
              end
          | r => r
          end
      end
  end.

(** ** loadLeaderboard *)

Definition csvFile (s : state) : string :=
  if isOracleMode s then "data/benchmark_oracle.csv" else "data/benchmark_results.csv".

(** What comes back from [fetch(csvFile)]: a rejection (the network failed),
    or a response with its [ok] flag, its [status], and what
    [response.text()] settles to. *)
Inductive fetched : Type :=
| Rejected (e : error)
| Responded (ok : bool) (status : nat) (text : error + string).

(** The load-time filter: "require System and Models fields". *)
Definition keptAtLoad (d : row) : bool :=
  nonBlank (d !! "System") && nonBlank (d !! "Models").

(** The [catch] block. *)
Definition showLoadError (e : error) (s : state) : state :=
  match tbody (document s) with
  | Some _ =>
      setDocument
        (setTbody
           (setInnerHTML
              (errorRow "4" e))
           (document s)) s
  | None => s
  end.

Section Loader.

(** [Papa.parse(csvText, { header: true })], the CSV parser: the rows in
    [parsed.data], or a throw.  The row-level errors in [parsed.errors] are
    only logged. *)
Variable Papa_parse : string -> error + list row.

(** [loadLeaderboard()] up to the first [await]: the resource it asks
    [fetch] for. *)
Definition loadLeaderboard_request (s : state) : string := csvFile s.

(** The ways a load fails before it stores a dataset, each with the value
    the [catch] block receives. *)
Inductive loadFails : fetched → error → Prop :=
| network_rejection e :
    loadFails (Rejected e) e
| http_status status text :
    loadFails (Responded false status text)
      (Error ("HTTP error! status: " +:+ natToString status))
| body_rejection status e :
    loadFails (Responded true status (inl e)) e
| parse_exception status csvText e :
    Papa_parse csvText = inl e →
    loadFails (Responded true status (inr csvText)) e.

(** [loadLeaderboard()] from the settled fetch to its end, run on the
    state of that moment. *)
Definition loadLeaderboard_settle (r : fetched) (s : state) : result :=
  match r with
  | Rejected e => Done (showLoadError e s)
  | Responded false status _ =>
      Done (showLoadError (Error ("HTTP error! status: " +:+ natToString status)) s)
  | Responded true _ (inl e) => Done (showLoadError e s)
  | Responded true _ (inr csvText) =>
      match Papa_parse csvText with
      | inl e => Done (showLoadError e s)
      | inr data =>
          let s1 := setLeaderboardData (List.filter keptAtLoad data) s in
          match displayLeaderboard (currentDomain s1) None s1 with
          | Done s2 => Done s2
          | Threw e s2 => Done (showLoadError e s2)
          | Unmodelled => Unmodelled
          end
      end
  end.

End Loader.

(** ** The controls *)

(** The [change] listener of the domain selector. *)
Definition onDomainChange (value : string) (s : state) : result :=
  displayLeaderboard value None (setCurrentDomain value s).

(** The listeners of the search box: the debounced [input], the Enter key,
    and the clear button and the Escape key. *)
Definition onSearch (value : string) (s : state) : result :=
  displayLeaderboard (currentDomain s) (Some value) s.

Definition onClearSearch (s : state) : result :=
  displayLeaderboard (currentDomain s) (Some "") s.

(** [handleOracleToggle()]: the flag starts as the checkbox is. *)
Definition handleOracleToggle (s : state) : state :=
  setIsOracleMode (oracleToggle (document s)) s.

Definition updateTitle (s : state) : state :=
  match heading (document s) with
  | Some _ =>
      setDocument
        (setHeading
           (Some (if isOracleMode s then "Current Rankings (Oracle Inputs)"
                  else "Current Rankings"))
           (document s)) s
  | None => s
  end.

(** [toggleHandler()], run by a click on the container and by the Enter and
    Space keys: the new state and the resource [loadLeaderboard()] asks for. *)
Definition toggleHandler (s : state) : state * string :=
  let checked := negb (oracleToggle (document s)) in
  let s1 := setIsOracleMode checked (setDocument (setOracleToggle checked (document s)) s) in
  let s2 := updateTitle s1 in
  (setDocument (setPulse true (document s2)) s2, loadLeaderboard_request s2).

(** The timer that ends the pulse. *)
Definition pulseTimeout (s : state) : state :=
  setDocument (setPulse false (document s)) s.

(** The [change] listener of the checkbox, which the browser has already
    switched. *)
Definition onToggleChange (s : state) : state * string :=
  let s1 := setIsOracleMode (oracleToggle (document s)) s in
  let s2 := updateTitle s1 in
  (s2, loadLeaderboard_request s2).



(** The [DOMContentLoaded] listener: [loadLeaderboard()] runs to its first
    [await] and sends its request, then [handleOracleToggle()] reads the
    checkbox.  (The other calls attach listeners and fill the selector.) *)
Definition domContentLoaded (s : state) : state * string :=
  (handleOracleToggle s, loadLeaderboard_request s).

(** A click on the checkbox itself: the browser switches it, then the
    [change] listener runs. *)
Definition checkboxClicked (s : state) : state * string :=
  onToggleChange
    (setDocument (setOracleToggle (negb (oracleToggle (document s))) (document s)) s).

(** ** Notions the properties are stated with *)

(** Descending by score, on the scores as the comparator reads them. *)
Definition scoreDescending (adjusted : string) (a b : row) : Prop :=
  ltb (or0 (score adjusted a)) (or0 (score adjusted b)) = false.




(** The text of the status line for [n] rows. *)
Definition statusText (n : nat) : string :=
  "Showing " +:+ natToString n +:+ " filtered results with original rankings".

(** The table body of the "No matching results found" message. *)
Definition noMatchingResults : list node :=
  [Markup (messageRow "4" "No matching results found")].

(** The heading of a mode. *)
Definition label (oracle : bool) : string :=
  if oracle then "Current Rankings (Oracle Inputs)" else "Current Rankings".

(** The search term can be highlighted within the modelled RegExp fragment. *)
Definition highlightable (searchTerm : string) : Prop :=
  searching searchTerm = true →
  is_Some (groupRegExp (escapeHtml (Some (trim searchTerm)))).

End Part000.

(* ===================================================================== *)
(** * The properties as the specification words them, and sample rows *)
(* ===================================================================== *)

Module Stated.

Local Open Scope Z_scope.


(** "Valid for this column": the value is a non-negative finite number. *)
Definition finiteNonNegative (x : number) : Prop :=
  ∃ k, x = Fin k ∧ 0 <= k.

Definition validIffFiniteNonNegative (adjusted : string) (entry : row) : Prop :=
  Part000.hasScore adjusted entry = true
  ↔ finiteNonNegative (Part000.score adjusted entry).

(** What the filter does accept: a number that is not NaN and not below
    zero, the positive infinity included. *)
Definition nonNegative (x : number) : Prop :=
  x = PosInf ∨ finiteNonNegative x.

(** "Wrap case-insensitive occurrences of the literal search term": every
    character of the escaped term stands for itself. *)
Definition literalPattern (t : string) : list atom :=
  map Lit (String.list_ascii_of_string t).

Definition highlightLiteral (searchTerm text : string) : string :=
  if Part000.searching searchTerm
  then replaceWithMark (literalPattern (escapeHtml (Some (trim searchTerm)))) text
  else text.


(** "escapeHtml replaces only the characters &, < and >." *)
Definition escapesOnlyThree : Prop :=
  ∀ c : ascii, c ≠ "&"%char → c ≠ "<"%char → c ≠ ">"%char →
    escapeHtml (Some (String c EmptyString)) = String c EmptyString.

End Stated.

Module Sample.

Definition alpha : row :=
  list_to_map [("System", "Alpha"); ("Models", "gpt-4.1"); ("Overall", "90"); ("Legal", "50")].

Definition beta : row :=
  list_to_map [("System", "Beta"); ("Models", "o3"); ("Overall", "80"); ("Legal", "70")].


Definition unbounded : row :=
  list_to_map [("System", "Gamma"); ("Models", "o3"); ("Overall", "Infinity")].

Definition wordy : row :=
  list_to_map [("System", "Delta"); ("Models", "o3"); ("Overall", "abc")].

Definition versioned : row :=
  list_to_map [("System", "Alpha (v2)"); ("Models", "o3"); ("Overall", "85")].

Definition noModel : row :=
  list_to_map [("System", "Epsilon"); ("Overall", "70")].

Definition page : Part000.page :=
  Part000.Page (Some []) (Some ("", "none")) (Some "Current Rankings") false false false.

Definition state (data : list row) : Part000.state :=
  Part000.State data "overall" false "" page.

Definition teamA : row :=
  list_to_map [("team", "A"); ("overall", "90"); ("runtime", "1.0");
               ("date", "2024-01-01"); ("paper_url", "http://x")].

Definition scriptState (data : list row) : Script.state :=
  Script.State data "overall" (Script.Page (Some []) false).

End Sample.

(* ===================================================================== *)
(** * Facts about the built-ins *)
(* ===================================================================== *)

Module JSFacts.

Import Stated.

Local Open Scope Z_scope.

(** ** Rounding keeps the sign *)

Lemma round_half_even_lower (num den : Z) :
  0 < den → num / den <= round_half_even num den.
Proof.
  intros Hden. unfold round_half_even.
  destruct (2 * (num mod den) ?= den); [destruct (Z.even (num / den))| |]; lia.
Qed.

Lemma shift_bounds (q : Z) :
  let shift := if q <? 2 ^ 53 then 0 else Z.log2 q - 52 in
  0 <= shift ∧ (0 < q → 2 ^ shift <= q).
Proof.
  destruct (q <? 2 ^ 53) eqn:E; cbv zeta.
  - split; [lia|]. change (2 ^ 0) with 1. lia.
  - apply Z.ltb_ge in E.
    assert (0 < q) by (pose proof (Z.pow_pos_nonneg 2 53); lia).
    assert (53 <= Z.log2 q) by (apply Z.log2_le_pow2; lia).
    split; [lia|]. intros _.
    pose proof (Z.log2_spec q H) as [Hl _].
    etransitivity; [|exact Hl].
    apply Z.pow_le_mono_r; lia.
Qed.

Lemma round_units_sign (d k : Z) :
  round_units d 1 = Some k → (0 <= d → 0 <= k) ∧ (0 < d → 0 < k).
Proof.
  unfold round_units. rewrite Z.div_1_r, Z.mul_1_l.
  pose proof (shift_bounds d) as [Hs Hle]. cbv zeta in Hs, Hle.
  set (shift := if d <? 2 ^ 53 then 0 else Z.log2 d - 52) in *.
  destruct (_ <? 2 ^ (1024 + unit_exp)); [|discriminate].
  intros [= <-].
  assert (0 < 2 ^ shift) by (apply Z.pow_pos_nonneg; lia).
  pose proof (round_half_even_lower d (2 ^ shift) H).
  split; intros Hd.
  - assert (0 <= d / 2 ^ shift) by (apply Z.div_pos; lia).
    apply Z.mul_nonneg_nonneg; lia.
  - assert (1 <= d / 2 ^ shift).
    { apply Z.div_le_lower_bound; lia. }
    apply Z.mul_pos_pos; lia.
Qed.

Lemma round_units_zero : round_units 0 1 = Some 0.
Proof. vm_compute. reflexivity. Qed.

Lemma gt0_round (neg : bool) (d : Z) :
  0 <= d → gt0 (round_binary64 neg d 1) = negb neg && (0 <? d).
Proof.
  intros Hd. unfold round_binary64.
  destruct (Z.eq_dec d 0) as [->|Hne].
  { rewrite round_units_zero. by destruct neg. }
  replace (0 <? d) with true by (symmetry; apply Z.ltb_lt; lia).
  destruct (round_units d 1) as [k|] eqn:E; [|by destruct neg].
  apply round_units_sign in E as [_ Hp].
  destruct neg; simpl; [apply Z.ltb_ge | apply Z.ltb_lt]; lia.
Qed.

(** The sign of a difference is the order of its operands. *)
Lemma gt0_sub (x y : number) : gt0 (sub y x) = ltb x y.
Proof.
  destruct x as [| | |a], y as [| | |b]; try reflexivity.
  unfold sub, ltb. rewrite gt0_round by lia.
  destruct (b - a <? 0) eqn:En; simpl; symmetry.
  - apply Z.ltb_ge. lia.
  - destruct (0 <? Z.abs (b - a)) eqn:Ep; [apply Z.ltb_lt | apply Z.ltb_ge]; lia.
Qed.

Lemma or0_not_NaN (x : number) : isNaN (or0 x) = false.
Proof. by destruct x. Qed.

Lemma or0_valid (x : number) : isNaN x = false → or0 x = x.
Proof. by destruct x. Qed.

Lemma ltb_asym (x y : number) : ltb x y = true → ltb y x = false.
Proof.
  destruct x, y; simpl; try done. intros H. apply Z.ltb_lt in H. apply Z.ltb_ge. lia.
Qed.

(** On numbers that are not NaN, "not less than" is transitive. *)
Lemma ltb_false_trans (x y z : number) :
  isNaN y = false → ltb x y = false → ltb y z = false → ltb x z = false.
Proof.
  destruct x, y, z; simpl; try done.
  intros _ H1 H2. apply Z.ltb_ge in H1, H2. apply Z.ltb_ge. lia.
Qed.


(** ** The sort *)

Section Sort.
Context {A : Type} (gt : A → A → bool).

Lemma insert_perm (x : A) (l : list A) : insert gt x l ≡ₚ x :: l.
Proof.
  induction l as [|y l IH]; simpl; [done|].
  destruct (gt x y); [|done].
  rewrite IH. apply Permutation_swap.
Qed.

Lemma sort_perm (l : list A) : sort gt l ≡ₚ l.
Proof.
  induction l as [|x l IH]; simpl; [done|].
  by rewrite insert_perm, IH.
Qed.

Lemma elem_of_sort (x : A) (l : list A) : x ∈ sort gt l ↔ x ∈ l.
Proof. by rewrite sort_perm. Qed.

Lemma length_sort (l : list A) : length (sort gt l) = length l.
Proof. by rewrite sort_perm. Qed.

(** When the comparator decides a transitive relation [le] both ways, the
    result is sorted by it. *)
Context (le : A → A → Prop).
Hypothesis le_trans : ∀ a b c, le a b → le b c → le a c.
Hypothesis not_gt_le : ∀ a b, gt a b = false → le a b.
Hypothesis gt_le : ∀ a b, gt a b = true → le b a.

Lemma insert_sorted (x : A) (l : list A) :
  StronglySorted le l → StronglySorted le (insert gt x l).
Proof.
  induction 1 as [|y l Hl IH Hy]; simpl.
  - repeat constructor.
  - destruct (gt x y) eqn:E.
    + constructor; [done|].
      rewrite insert_perm. constructor; [by apply gt_le | done].
    + apply not_gt_le in E. 
      constructor; [by constructor|].
      constructor; [done|]. eapply Forall_impl; [exact Hy|]. 
      intros z Hz. by eapply le_trans.
Qed.

Lemma sort_sorted (l : list A) : StronglySorted le (sort gt l).
Proof.
  induction l as [|x l IH]; simpl; [constructor | by apply insert_sorted].
Qed.

End Sort.

Lemma elem_of_filterb {A} (f : A → bool) (l : list A) (x : A) :
  x ∈ List.filter f l ↔ x ∈ l ∧ f x = true.
Proof. rewrite !list_elem_of_In. apply filter_In. Qed.

Lemma elem_of_map {A B} (f : A → B) (l : list A) (y : B) :
  y ∈ map f l ↔ ∃ x, y = f x ∧ x ∈ l.
Proof.
  rewrite list_elem_of_In, in_map_iff.
  split; intros (x & H1 & H2); exists x; by rewrite ?list_elem_of_In in *.
Qed.

Lemma valid_nonNegative (x : number) :
  negb (isNaN x) && ge0 x = true ↔ nonNegative x.
Proof.
  unfold nonNegative, finiteNonNegative. destruct x as [| | |k]; simpl.
  - split; [done|]. by intros [|(?&?&?)].
  - split; [by left|done].
  - split; [done|]. by intros [|(?&?&?)].
  - rewrite Z.leb_le. split; [by right; exists k|]. by intros [|(? & [= <-] & ?)].
Qed.

Lemma StronglySorted_impl_elem {A} (R R' : A → A → Prop) (l : list A) :
  (∀ a b, a ∈ l → b ∈ l → R a b → R' a b) →
  StronglySorted R l → StronglySorted R' l.
Proof.
  intros HR Hl. induction Hl as [|x l Hl IH Hx]; constructor.
  - apply IH. intros a b Ha Hb. apply HR; by right.
  - apply Forall_forall. intros y Hy. apply HR; [by left|by right|].
    by eapply Forall_forall in Hx.
Qed.

(** ** Strings *)

Lemma append_cons (c : ascii) (a b : string) : String c a +:+ b = String c (a +:+ b).
Proof. reflexivity. Qed.

Lemma append_nil (b : string) : "" +:+ b = b.
Proof. reflexivity. Qed.

Lemma append_assoc (a b c : string) : (a +:+ b) +:+ c = a +:+ (b +:+ c).
Proof.
  induction a as [|x a IH]; [done|]. by rewrite !append_cons, IH.
Qed.

Lemma startsWith_append (p s : string) : startsWith p (p +:+ s) = true.
Proof.
  induction p as [|c p IH]; [done|].
  rewrite append_cons. simpl. by rewrite Ascii.eqb_refl.
Qed.

Lemma includes_append (a m b : string) : includes (a +:+ m +:+ b) m = true.
Proof.
  induction a as [|c a IH].
  - rewrite append_nil. assert (H := startsWith_append m b).
    destruct (m +:+ b); simpl; by rewrite H.
  - rewrite append_cons. simpl. rewrite IH. apply orb_true_r.
Qed.

Lemma trim_nonempty_truthy (s : string) : trim s ≠ "" → truthy s = true.
Proof. by destruct s. Qed.


(** ** escapeHtml *)

Lemma keepChars_append (f : ascii → bool) (a b : string) :
  keepChars f (a +:+ b) = keepChars f a +:+ keepChars f b.
Proof.
  induction a as [|c a IH]; [done|]. rewrite append_cons. simpl.
  destruct (f c); by rewrite ?append_cons, IH.
Qed.

Lemma serializeText_append (a b : string) :
  serializeText (a +:+ b) = serializeText a +:+ serializeText b.
Proof.
  induction a as [|c a IH]; [done|].
  rewrite append_cons. simpl. by rewrite IH, append_assoc.
Qed.

Lemma escapeChar_cases (c : ascii) :
  escapeChar c =
    if Ascii.eqb c "&" then "&amp;"
    else if Ascii.eqb c "160" then "&nbsp;"
    else if Ascii.eqb c "<" then "&lt;"
    else if Ascii.eqb c ">" then "&gt;"
    else String c "".
Proof.
  unfold escapeChar. destruct (Ascii.eqb c "&"); [done|].
  replace (code c =? 160)%N with (Ascii.eqb c "160"); [done|].
  destruct (Ascii.eqb_spec c "160") as [->|Hne]; [done|].
  symmetry. apply N.eqb_neq. intros H. apply Hne.
  rewrite <- (ascii_N_embedding c). unfold code in H. by rewrite H.
Qed.

Lemma escapeChar_quotes (c : ascii) : keepChars isQuote (escapeChar c) = keepChars isQuote (String c "").
Proof.
  rewrite escapeChar_cases.
  destruct (Ascii.eqb_spec c "&") as [->|]; [done|].
  destruct (Ascii.eqb_spec c "160") as [->|]; [done|].
  destruct (Ascii.eqb_spec c "<") as [->|]; [done|].
  destruct (Ascii.eqb_spec c ">") as [->|]; done.
Qed.

(** ** Highlighting *)








Lemma errorRow_includes_message (colspan : string) (e : error) :
  includes (errorRow colspan e) (message e) = true.
Proof.
  unfold errorRow, messageRow.
  rewrite <- !append_assoc. rewrite !append_assoc.
  set (suffix := "</td></tr>").
  match goal with |- includes ?x _ = _ => 
    replace x with (("<tr><td colspan=" +:+ dq +:+ colspan +:+ dq +:+ " style=" +:+ dq
    +:+ "text-align: center; color: #dc3545;" +:+ dq +:+ ">Error loading leaderboard data: ") +:+ message e +:+ suffix) end.
  - apply includes_append.
  - by rewrite !append_assoc.
Qed.

End JSFacts.

Import JSFacts.

(* ===================================================================== *)
(** * Properties of src/unnamed/part_000 *)
(* ===================================================================== *)

Module Part000Facts.
Import Part000 Stated.

Section Ranking.
Variables (data : list row) (adjusted : string).

Lemma elem_of_allValidData (e : row) :
  e ∈ allValidData data adjusted ↔ e ∈ data ∧ hasScore adjusted e = true.
Proof. unfold allValidData. by rewrite elem_of_sort, elem_of_filterb. Qed.

Lemma elem_of_validData (searchTerm : string) (e : row) :
  e ∈ validData data adjusted searchTerm ↔
    e ∈ data ∧ hasScore adjusted e = true ∧
    (searching searchTerm = true → matchesSearch searchTerm e = true).
Proof.
  unfold validData. destruct (searching searchTerm).
  - rewrite !elem_of_filterb. tauto.
  - rewrite elem_of_filterb. split; [intros []; by split_and! | tauto].
Qed.

Lemma elem_of_sortedData (searchTerm : string) (e : row) :
  e ∈ sortedData data adjusted searchTerm ↔ e ∈ validData data adjusted searchTerm.
Proof. unfold sortedData. by rewrite elem_of_sort. Qed.

(** *** The rank map *)

Lemma setRanks_other (id : string) (l : list row) (i : nat) (m : gmap string nat) :
  id ∉ map (uniqueId adjusted) l → setRanks adjusted i l m !! id = m !! id.
Proof.
  revert i m. induction l as [|e l IH]; intros i m Hid; simpl; [done|].
  simpl in Hid. rewrite not_elem_of_cons in Hid. destruct Hid as [Hne Hid].
  rewrite IH by done. by rewrite lookup_insert_ne.
Qed.


(** Every entry of the list finds a rank under its identifier: a position
    of the list, counted from [index + 1]. *)
Lemma setRanks_elem (e : row) (l : list row) (i : nat) (m : gmap string nat) :
  e ∈ l →
  ∃ r, setRanks adjusted i l m !! uniqueId adjusted e = Some r ∧ i < r ≤ i + length l.
Proof.
  revert e i m. induction l as [|x l IH]; intros e i m He; [by apply elem_of_nil in He|].
  simpl. destruct (decide (uniqueId adjusted e ∈ map (uniqueId adjusted) l)) as [Hin|Hnin].
  - apply elem_of_map in Hin as (e' & Heq & He').
    destruct (IH e' (S i) (<[uniqueId adjusted x := S i]> m) He') as (r & Hr & Hb).
    exists r. rewrite Heq, Hr. split; [done|lia].
  - rewrite setRanks_other by done.
    apply elem_of_cons in He as [->|He].
    + exists (S i). rewrite lookup_insert_eq. split; [done|lia].
    + exfalso. apply Hnin, elem_of_map. eauto.
Qed.

Lemma originalRank_valid (e : row) :
  e ∈ data → hasScore adjusted e = true →
  ∃ r, originalRank data adjusted e = Some r ∧
       1 ≤ r ≤ length (allValidData data adjusted) ∧
       rankOr999 (originalRankMap data adjusted) (uniqueId adjusted e) = r.
Proof.
  intros He Hs. unfold originalRank, originalRankMap, rankOr999.
  destruct (setRanks_elem e (allValidData data adjusted) 0 ∅) as (r & Hr & Hb).
  { by apply elem_of_allValidData. }
  exists r. rewrite Hr. split; [done|]. split; [lia|]. destruct r; [lia|done].
Qed.

(** *** The two orders *)

Lemma gt0_byScore (a b : row) :
  gt0 (byScore adjusted a b) = ltb (or0 (score adjusted a)) (or0 (score adjusted b)).
Proof. unfold byScore. apply gt0_sub. Qed.

Lemma sort_byScore_sorted (l : list row) :
  StronglySorted (scoreDescending adjusted) (sort (λ a b, gt0 (byScore adjusted a b)) l).
Proof.
  apply sort_sorted; unfold scoreDescending.
  - intros a b c. apply ltb_false_trans, or0_not_NaN.
  - intros a b. by rewrite gt0_byScore.
  - intros a b. rewrite gt0_byScore. apply ltb_asym.
Qed.


Lemma sortedData_not_searching (searchTerm : string) :
  searching searchTerm = false →
  sortedData data adjusted searchTerm = allValidData data adjusted.
Proof.
  intros Hs. unfold sortedData, allValidData, validData, byRankOrScore. by rewrite Hs.
Qed.

End Ranking.

(** *** From the ranking to the table *)

Lemma highlight_is_Some (searchTerm text : string) :
  highlightable searchTerm → is_Some (highlight searchTerm text).
Proof.
  unfold highlightable, highlight. destruct (searching searchTerm); [|by eexists].
  intros [pat ->]; [done|]. by eexists.
Qed.


Lemma renderRows_is_Some (searchTerm adjusted : string) (rows : list (option nat * row)) :
  highlightable searchTerm → is_Some (renderRows searchTerm adjusted rows).
Proof.
  intros Hh. unfold renderRows. apply mapM_is_Some, Forall_forall.
  intros [r e] _. unfold renderEntry. simpl.
  destruct (highlight_is_Some searchTerm (escapeHtml (e !! "System")) Hh) as [? ->].
  destruct (highlight_is_Some searchTerm (escapeHtml (e !! "Models")) Hh) as [? ->].
  by eexists.
Qed.

Lemma length_rankedRows (data : list row) (domain searchTerm : string) :
  length (rankedRows data domain searchTerm)
    = length (validData data (adjustedDomain domain) searchTerm).
Proof. unfold rankedRows, sortedData. by rewrite length_map, length_sort. Qed.

Lemma validData_nil (adjusted searchTerm : string) : validData [] adjusted searchTerm = [].
Proof. unfold validData. by destruct (searching searchTerm). Qed.

(** A render with rows to show and a table body to write to puts exactly the
    rows of [rankedRows] there, each rendered by [renderEntry]. *)
Lemma tbody_updateFilterStatus (searchTerm : string) (n : nat) (d : page) :
  tbody (updateFilterStatus searchTerm n d) = tbody d.
Proof.
  unfold updateFilterStatus. destruct (filterStatus d) as [[??]|]; [|done].
  by destruct (searching searchTerm).
Qed.

Lemma displayLeaderboard_rows (domain : string) (arg : option string) (s : state)
    (trs : list node) :
  rankedRows (leaderboardData s) domain (default (currentSearchTerm s) arg) ≠ [] →
  is_Some (tbody (document s)) →
  renderRows (default (currentSearchTerm s) arg) (adjustedDomain domain)
    (rankedRows (leaderboardData s) domain (default (currentSearchTerm s) arg)) = Some trs →
  ∃ s', displayLeaderboard domain arg s = Done s' ∧
        tbody (document s') = Some trs ∧
        leaderboardData s' = leaderboardData s.
Proof.
  destruct s as [data dom mode cur [tb fs hd ot pl st]]. cbn [leaderboardData currentSearchTerm document tbody].
  set (searchTerm := default cur arg).
  intros Hne [old ->] Htrs.
  assert (Hlen := length_rankedRows data domain searchTerm).
  unfold displayLeaderboard. cbn [leaderboardData currentSearchTerm]. fold searchTerm.
  destruct data as [|d0 data].
  { exfalso. apply Hne, nil_length_inv. by rewrite Hlen, validData_nil. }
  cbn [leaderboardData setCurrentSearchTerm].
  destruct (validData (d0 :: data) _ _) as [|v0 valid] eqn:Hvalid.
  { exfalso. by apply Hne, nil_length_inv. }
  unfold writeTbody. cbn [document setDocument].
  rewrite tbody_updateFilterStatus. cbn [tbody]. rewrite Htrs.
  eexists. split; [done|]. unfold addTopPerformersStyling.
  by destruct (topPerformersStyles _).
Qed.






Lemma rankedRows_unfiltered (data : list row) (domain : string) :
  rankedRows data domain ""
    = map (λ e, (originalRank data (adjustedDomain domain) e, e))
        (allValidData data (adjustedDomain domain)).
Proof. unfold rankedRows. by rewrite sortedData_not_searching. Qed.





(** C3, counterexample: a row whose value is the text Infinity is valid for
    the column, and its value is not a finite number. *)
Lemma infinite_score_is_valid : ¬ validIffFiniteNonNegative "Overall" Sample.unbounded.
Proof.
  intros [H _]. destruct (H eq_refl) as (k & Hk & _). vm_compute in Hk. discriminate.
Qed.

Lemma rankedRows_valid (data : list row) (domain searchTerm : string) (e : row) :
  e ∈ map snd (rankedRows data domain searchTerm) →
  e ∈ data ∧ hasScore (adjustedDomain domain) e = true.
Proof.
  unfold rankedRows. rewrite map_map. simpl. rewrite map_id.
  intros (? & ? & _)%elem_of_sortedData%elem_of_validData. done.
Qed.

Lemma rankedRows_unfiltered_elem (data : list row) (domain : string) (e : row) :
  e ∈ map snd (rankedRows data domain "") ↔
  e ∈ data ∧ hasScore (adjustedDomain domain) e = true.
Proof.
  rewrite rankedRows_unfiltered, map_map. simpl. rewrite map_id.
  apply elem_of_allValidData.
Qed.

(** C4, at the failing input.  The search term "." keeps the row whose model
    is gpt-4.1; the escaped term becomes the source of a RegExp, where the
    dot matches any character, so every character of the cell is wrapped,
    while wrapping the occurrences of the literal term wraps the one dot.
    The term "(" on a row that contains it is a pattern outside the modelled
    fragment (in the browser the RegExp constructor throws). *)
Theorem dot_highlights_every_character :
  highlight "." (escapeHtml (Some "gpt-4.1"))
    = Some "<mark>g</mark><mark>p</mark><mark>t</mark><mark>-</mark><mark>4</mark><mark>.</mark><mark>1</mark>"
  ∧ highlightLiteral "." (escapeHtml (Some "gpt-4.1")) = "gpt-4<mark>.</mark>1"
  ∧ matchesSearch "." Sample.alpha = true
  ∧ displayLeaderboard "overall" (Some "(") (Sample.state [Sample.versioned; Sample.beta])
    = Unmodelled.
Proof. vm_compute. done. Qed.

(** With rows loaded and none to show, whether no row is valid for the column
    or none matches the search, the table says the same. *)
Lemma nothing_to_show (domain : string) (arg : option string) (s : state) :
  leaderboardData s ≠ [] →
  validData (leaderboardData s) (adjustedDomain domain) (default (currentSearchTerm s) arg) = [] →
  is_Some (tbody (document s)) →
  ∃ s', displayLeaderboard domain arg s = Done s' ∧
        tbody (document s') = Some noMatchingResults.
Proof.
  destruct s as [data dom mode cur [tb fs hd ot pl st]].
  cbn [leaderboardData currentSearchTerm document tbody].
  intros Hne Hvalid [old ->]. unfold displayLeaderboard.
  cbn [leaderboardData currentSearchTerm setCurrentSearchTerm].
  destruct data as [|d0 data]; [done|]. rewrite Hvalid.
  unfold writeTbody. cbn [document setDocument]. rewrite tbody_updateFilterStatus.
  cbn [tbody]. by eexists.
Qed.

(** C9.  A load asks for one of two fixed resources, chosen by the oracle
    flag.  With the flag and the checkbox in step (as [handleOracleToggle]
    leaves them), activating the toggle, through its container or by a click
    on the checkbox, flips the flag, asks for the resource of the new mode,
    which is not the one of the old mode, and sets the heading, when the page
    has one, to the label of the new mode. *)
Theorem toggle_reloads_the_other_resource (s : state) :
  isOracleMode s = oracleToggle (document s) →
  loadLeaderboard_request s
    = (if isOracleMode s then "data/benchmark_oracle.csv" else "data/benchmark_results.csv") ∧
  isOracleMode (handleOracleToggle s) = oracleToggle (document (handleOracleToggle s)) ∧
  ∀ handler, handler = toggleHandler ∨ handler = checkboxClicked →
    let s' := (handler s).1 in
    let requested := (handler s).2 in
    isOracleMode s' = negb (isOracleMode s) ∧
    oracleToggle (document s') = isOracleMode s' ∧
    requested = loadLeaderboard_request s' ∧
    requested ≠ loadLeaderboard_request s ∧
    heading (document s') = (λ _, label (isOracleMode s')) <$> heading (document s) ∧
    leaderboardData s' = leaderboardData s.
Proof.
  destruct s as [data dom mode cur [tb fs hd ot pl st]]. simpl. intros ->.
  split; [done|]. split; [done|]. intros handler [-> | ->]; simpl;
    destruct ot, hd; simpl; by split_and!.
Qed.

(** C9, witness: the toggle is activated on the initial page. *)
Lemma toggle_reloads_the_other_resource_witness :
  Part000.isOracleMode (Sample.state []) = oracleToggle (document (Sample.state []))
  ∧ (toggleHandler (Sample.state [])).2 = "data/benchmark_oracle.csv".
Proof.
  split; [reflexivity|].
  exact (eq_trans
    (proj1 (proj2 (proj2 (proj2 (proj2
       (toggle_reloads_the_other_resource (Sample.state []) eq_refl))
       toggleHandler (or_introl eq_refl)))))
    eq_refl).
Defined.



Lemma showLoadError_data (e : error) (s : state) :
  leaderboardData (showLoadError e s) = leaderboardData s.
Proof. unfold showLoadError. by destruct (tbody (document s)). Qed.


End Part000Facts.

(* ===================================================================== *)
(** * Properties of src/script.js *)
(* ===================================================================== *)

Module ScriptFacts.
Import Script.

Lemma rankedRows_entries (data : list row) (domain : string) :
  map snd (rankedRows data domain) = sortedData data domain.
Proof.
  unfold rankedRows. generalize (sortedData data domain) as l.
  generalize S as g. intros g l. revert g.
  induction l as [|x l IH]; intros g; [done|]. simpl. f_equal. apply IH.
Qed.

Lemma rankedRows_ranks (data : list row) (domain : string) :
  map fst (rankedRows data domain) = seq 1 (length (sortedData data domain)).
Proof.
  unfold rankedRows. generalize (sortedData data domain) as l.
  change S with (λ i, S (0 + i)) at 1. generalize 0 as n. intros n l. revert n.
  induction l as [|x l IH]; intros n; [done|]. simpl. f_equal; [lia|].
  rewrite <- (IH (S n)). f_equal. apply imap_ext. intros i y _. simpl. f_equal. lia.
Qed.

Lemma elem_of_rankedRows (data : list row) (domain : string) (e : row) :
  e ∈ map snd (rankedRows data domain) ↔ e ∈ data ∧ hasScore domain e = true.
Proof.
  rewrite rankedRows_entries. unfold sortedData, validData.
  by rewrite elem_of_sort, elem_of_filterb.
Qed.

Section Display.
Context {time : Type}.
Variables (Date_parse : string → option time) (toLocaleDateString : time → string).


Lemma script_showLoadError_data (e : error) (s : state) :
  leaderboardData (showLoadError e s) = leaderboardData s.
Proof. unfold showLoadError. by destruct (tbody (document s)). Qed.

End Display.

End ScriptFacts.

(* ===================================================================== *)
(** * Properties of both variants *)
(* ===================================================================== *)

Import Stated.

(** ** C10: escapeHtml *)

(** C10, as amended.  [escapeHtml] works character by character; it replaces
    the ampersand, the two angle brackets and the no-break space (U+00A0) by
    entities and keeps every other character; the quote characters of the
    input are those of the output, in the same order; and the link cell of
    [src/script.js] puts the result between double quotes, so a quote in
    [paper_url] ends the [href] value. *)
Theorem escapeHtml_replaces_four_characters :
  (∀ c, escapeHtml (Some (String c "")) =
          if Ascii.eqb c "&" then "&amp;"
          else if Ascii.eqb c "<" then "&lt;"
          else if Ascii.eqb c ">" then "&gt;"
          else if Ascii.eqb c "160" then "&nbsp;"
          else String c "") ∧
  (∀ a b, escapeHtml (Some (a +:+ b)) = escapeHtml (Some a) +:+ escapeHtml (Some b)) ∧
  (∀ s, keepChars isQuote (escapeHtml (Some s)) = keepChars isQuote s) ∧
  escapeHtml None = "" ∧
  match Script.renderEntry (λ _, None) (λ _ : unit, "") "overall" 1
          (<["paper_url" := "http://x" +:+ dq +:+ " onclick=" +:+ dq +:+ "x"]> Sample.teamA) with
  | Tr _ html =>
      includes html
        ("href=" +:+ dq +:+ "http://x" +:+ dq +:+ " onclick=" +:+ dq +:+ "x" +:+ dq) = true
  | Markup _ => False
  end.
Proof.
  split_and!.
  - intros c. unfold escapeHtml. simpl. rewrite escapeChar_cases.
    destruct (Ascii.eqb_spec c "&") as [->|]; [done|].
    destruct (Ascii.eqb_spec c "160") as [->|]; [done|].
    destruct (Ascii.eqb c "<"), (Ascii.eqb c ">"); done.
  - intros a b. apply serializeText_append.
  - intros s. unfold escapeHtml. simpl. induction s as [|c s IH]; [done|].
    simpl serializeText. rewrite keepChars_append, escapeChar_quotes, IH.
    simpl. by destruct (isQuote c).
  - done.
  - vm_compute. reflexivity.
Qed.

(** C10, counterexample: the no-break space is neither of the three
    characters and is replaced all the same. *)
Lemma nbsp_is_escaped :
  escapeHtml (Some (String "160" "")) = "&nbsp;" ∧ ¬ escapesOnlyThree.
Proof.
  split; [reflexivity|].
  intros H. by specialize (H "160"%char ltac:(done) ltac:(done) ltac:(done)).
Qed.

(** ** C8: formatDate *)

(** C8, on the code.  Whatever the engine's date parser and formatter are,
    [formatDate] returns the formatted date when the argument parses and the
    text "Invalid Date" when it does not (or is [undefined]): the [catch]
    branch that would return the argument is never taken.  So for a string
    that does not parse, such as "not a date", the result is "Invalid Date"
    and not the string. *)
Theorem formatDate_never_returns_its_argument :
  (∀ (time : Type) (Date_parse : string → option time)
     (toLocaleDateString : time → string) (dateString : option string),
     formatDate Date_parse toLocaleDateString dateString
       = Some (match dateString ≫= Date_parse with
               | Some t => toLocaleDateString t
               | None => "Invalid Date"
               end)) ∧
  (∀ (toLocaleDateString : unit → string),
     formatDate (λ _, None) toLocaleDateString (Some "not a date") = Some "Invalid Date").
Proof. split; reflexivity. Qed.

(** ** C3: the rows valid for a column *)

(** C3, as amended.  In both variants a row is valid for the column exactly
    when [parseFloat] of its value is a number that is not NaN and not below
    zero (the positive infinity included); the rows of an unfiltered render
    are exactly the valid rows of the dataset, and every row of a filtered
    render is one of them.  The text "abc" parses to NaN, and neither NaN nor
    a negative number is valid: such a row is left out, not counted as
    zero. *)
Theorem valid_iff_not_NaN_and_not_negative :
  (∀ domain e, Script.hasScore domain e = true ↔ nonNegative (Script.score domain e)) ∧
  (∀ adjusted e, Part000.hasScore adjusted e = true ↔ nonNegative (Part000.score adjusted e)) ∧
  (∀ data domain e,
     e ∈ map snd (Script.rankedRows data domain)
     ↔ e ∈ data ∧ nonNegative (Script.score domain e)) ∧
  (∀ data domain e,
     e ∈ map snd (Part000.rankedRows data domain "")
     ↔ e ∈ data ∧ nonNegative (Part000.score (Part000.adjustedDomain domain) e)) ∧
  (∀ data domain searchTerm e,
     e ∈ map snd (Part000.rankedRows data domain searchTerm)
     → e ∈ data ∧ nonNegative (Part000.score (Part000.adjustedDomain domain) e)) ∧
  parseFloat (Some "abc") = NaN ∧
  ¬ nonNegative NaN ∧
  (∀ k, (k < 0)%Z → ¬ nonNegative (Fin k)).
Proof.
  split_and!.
  - intros. apply valid_nonNegative.
  - intros. apply valid_nonNegative.
  - intros. rewrite ScriptFacts.elem_of_rankedRows. unfold Script.hasScore.
    by rewrite valid_nonNegative.
  - intros. rewrite Part000Facts.rankedRows_unfiltered_elem. unfold Part000.hasScore.
    by rewrite valid_nonNegative.
  - intros data domain searchTerm e [? H]%Part000Facts.rankedRows_valid.
    split; [done|]. by apply valid_nonNegative.
  - reflexivity.
  - by intros [|(?&?&?)].
  - intros k Hk [|(? & [= <-] & ?)]; [done|lia].
Qed.

(** C3, witness: a render filtered by "a" over a valid row and a row whose
    value is "abc". *)
Lemma valid_iff_not_NaN_and_not_negative_witness :
  Sample.alpha ∈ map snd (Part000.rankedRows [Sample.wordy; Sample.alpha] "overall" "a")
  ∧ nonNegative (Part000.score (Part000.adjustedDomain "overall") Sample.alpha).
Proof.
  assert (H : Sample.alpha
                ∈ map snd (Part000.rankedRows [Sample.wordy; Sample.alpha] "overall" "a")).
  { apply (bool_decide_unpack _). vm_compute. exact I. }
  split; [exact H|].
  exact (proj2 (proj1 (proj2 (proj2 (proj2 (proj2 valid_iff_not_NaN_and_not_negative))))
                  [Sample.wordy; Sample.alpha] "overall" "a" Sample.alpha H)).
Defined.

(** ** C5: the empty states *)

(** C5, at the failing input.  In [src/unnamed/part_000], with rows loaded
    and no search term, a column absent from the data gives the row "No
    matching results found", the very row a search without matches gives;
    only the empty dataset has a message of its own.  In [src/script.js] the
    same column gives "No data available for this domain". *)
Theorem absent_domain_shows_no_matching_results :
  (∃ s', Part000.displayLeaderboard "biomedical" None
           (Sample.state [Sample.alpha; Sample.beta]) = Part000.Done s' ∧
         Part000.tbody (Part000.document s') = Some Part000.noMatchingResults) ∧
  (∃ s', Part000.displayLeaderboard "overall" (Some "zzz")
           (Sample.state [Sample.alpha; Sample.beta]) = Part000.Done s' ∧
         Part000.tbody (Part000.document s') = Some Part000.noMatchingResults) ∧
  (∃ s', Part000.displayLeaderboard "overall" None (Sample.state []) = Part000.Done s' ∧
         Part000.tbody (Part000.document s')
           = Some [Markup (messageRow "4" "No data available")]) ∧
  (∃ s', Script.displayLeaderboard (λ _, None) (λ _ : unit, "") "biomedical"
           (Sample.scriptState [Sample.teamA]) = Script.Done s' ∧
         Script.tbody (Script.document s')
           = Some [Markup (messageRow "6" "No data available for this domain")]).
Proof.
  split_and!.
  - by apply Part000Facts.nothing_to_show.
  - by apply Part000Facts.nothing_to_show.
  - by eexists.
  - by eexists.
Qed.

(** ** C6: the rows kept at load time *)




(** ** C7: a failed load *)

(** C7.  When the fetch is rejected, the response has a non-success status,
    the body cannot be read, or the parser throws, the load ends in the
    [catch] block: the stored dataset is the one from before, and the table
    body, when the page has one, is replaced by the single error row, whose
    text contains the message of the failure.  This holds in both
    variants. *)
Theorem load_failure_keeps_dataset :
  (∀ Papa_parse r e s,
     Part000.loadFails Papa_parse r e →
     let s' := Part000.showLoadError e s in
     Part000.loadLeaderboard_settle Papa_parse r s = Part000.Done s' ∧
     Part000.leaderboardData s' = Part000.leaderboardData s ∧
     Part000.tbody (Part000.document s')
       = (λ _, [Markup (errorRow "4" e)]) <$> Part000.tbody (Part000.document s) ∧
     includes (errorRow "4" e) (message e) = true) ∧
  (∀ (Date_parse : string → option unit) (toLocaleDateString : unit → string)
     Papa_parse r e s,
     Script.loadFails Papa_parse r e →
     let s' := Script.showLoadError e s in
     Script.loadLeaderboard_settle Date_parse toLocaleDateString Papa_parse r s = s' ∧
     Script.leaderboardData s' = Script.leaderboardData s ∧
     Script.tbody (Script.document s')
       = (λ _, [Markup (errorRow "6" e)]) <$> Script.tbody (Script.document s) ∧
     includes (errorRow "6" e) (message e) = true).
Proof.
  split.
  - intros Papa_parse r e s Hf s'. split_and!.
    + destruct Hf as [| | |status csvText e Hp]; simpl; by rewrite ?Hp.
    + apply Part000Facts.showLoadError_data.
    + subst s'. unfold Part000.showLoadError.
      by destruct (Part000.tbody (Part000.document s)) eqn:E; [|rewrite E].
    + apply errorRow_includes_message.
  - intros Date_parse toLocaleDateString Papa_parse r e s Hf s'. split_and!.
    + destruct Hf as [| | |status csvText e Hp]; simpl; by rewrite ?Hp.
    + apply ScriptFacts.script_showLoadError_data.
    + subst s'. unfold Script.showLoadError.
      by destruct (Script.tbody (Script.document s)) eqn:E; [|rewrite E].
    + apply errorRow_includes_message.
Qed.

(** C7, witness: a response with status 404 while two rows are stored. *)
Lemma load_failure_keeps_dataset_witness :
  Part000.loadFails (λ _, inr []) (Part000.Responded false 404 (inr ""))
    (Error "HTTP error! status: 404")
  ∧ Part000.leaderboardData
      (Part000.showLoadError (Error "HTTP error! status: 404")
         (Sample.state [Sample.alpha; Sample.beta]))
    = [Sample.alpha; Sample.beta].
Proof.
  assert (H : Part000.loadFails (λ _, inr []) (Part000.Responded false 404 (inr ""))
                (Error "HTTP error! status: 404"))
    by exact (Part000.http_status (λ _, inr []) 404 (inr "")).
  split; [exact H|].
  exact (proj1 (proj2 (proj1 load_failure_keeps_dataset (λ _, inr []) _ _
                         (Sample.state [Sample.alpha; Sample.beta]) H))).
Defined.

(* ===================================================================== *)
(** * Further properties *)
(* ===================================================================== *)

Module JSMore.

Lemma ltb_irrefl (x : number) : ltb x x = false.
Proof. destruct x; simpl; try done. apply Z.ltb_irrefl. Qed.

Lemma sort_ext {A} (gt gt' : A → A → bool) (l : list A) :
  (∀ a b, gt a b = gt' a b) → sort gt l = sort gt' l.
Proof.
  intros H. induction l as [|x l IH]; [done|]. simpl. rewrite IH.
  generalize (sort gt' l). intros k. induction k as [|y k IHk]; [done|].
  simpl. by rewrite H, IHk.
Qed.

Section Stable.
Context {A : Type} (gt : A → A → bool) (P : A → bool).
Hypothesis ties : ∀ a b, P a = true → P b = true → gt a b = false.

Lemma filter_insert (x : A) (l : list A) :
  List.filter P (insert gt x l) = List.filter P (x :: l).
Proof.
  induction l as [|y l IH]; [done|]. simpl.
  destruct (gt x y) eqn:E; [|done]. simpl. simpl in IH. rewrite IH.
  destruct (P x) eqn:Hx, (P y) eqn:Hy; try done.
  by rewrite (ties x y Hx Hy) in E.
Qed.

Lemma filter_sort (l : list A) : List.filter P (sort gt l) = List.filter P l.
Proof.
  induction l as [|x l IH]; [done|]. simpl.
  rewrite filter_insert. simpl. by rewrite IH.
Qed.
End Stable.


Lemma toLowerCase_empty (s : string) : toLowerCase s = "" → s = "".
Proof. by destruct s. Qed.

Lemma startsWith_split (p s : string) :
  startsWith p s = true → ∃ b, s = p +:+ b.
Proof.
  revert s. induction p as [|c p IH]; intros s; simpl.
  - intros _. by exists s.
  - destruct s as [|d s]; [done|]. destruct (Ascii.eqb_spec c d) as [->|]; [|done].
    intros [b ->]%IH. by exists b.
Qed.

Lemma includes_split (s p : string) :
  includes s p = true → ∃ a b, s = a +:+ p +:+ b.
Proof.
  induction s as [|c s IH].
  - simpl. rewrite orb_false_r. intros [b Hb]%startsWith_split. by exists "", b.
  - cbn [includes]. intros [H|H]%orb_true_iff.
    + apply startsWith_split in H as [b Hb]. by exists "", b.
    + destruct (IH H) as (a & b & ->). by exists (String c a), b.
Qed.

Lemma includes_trans (s p q : string) :
  includes s p = true → includes p q = true → includes s q = true.
Proof.
  intros (a & b & ->)%includes_split (a' & b' & ->)%includes_split.
  rewrite !append_assoc, <- (append_assoc a a'). apply includes_append.
Qed.




Ltac escapeChar_split :=
  rewrite !escapeChar_cases;
  repeat match goal with
         | |- context [Ascii.eqb ?a ?b] => destruct (Ascii.eqb_spec a b) as [->|?]
         end;
  rewrite ?append_cons, ?append_nil.

Lemma escapeChar_inj (c d : ascii) (x y : string) :
  escapeChar c +:+ x = escapeChar d +:+ y → c = d ∧ x = y.
Proof. escapeChar_split; intros H; by simplify_eq. Qed.

Lemma escapeChar_not_empty (c : ascii) (x : string) : escapeChar c +:+ x ≠ "".
Proof. by escapeChar_split. Qed.

(** X1.  [escapeHtml] loses nothing: two texts with the same escaped form
    are the same text. *)
Theorem escapeHtml_is_injective (a b : string) :
  escapeHtml (Some a) = escapeHtml (Some b) → a = b.
Proof.
  unfold escapeHtml. simpl. revert b.
  induction a as [|c a IH]; intros [|d b]; simpl; intros H.
  - done.
  - by apply eq_sym, escapeChar_not_empty in H.
  - by apply escapeChar_not_empty in H.
  - apply escapeChar_inj in H as [-> H]. f_equal. by apply IH.
Qed.

(** X1, witness. *)
Lemma escapeHtml_is_injective_witness :
  escapeHtml (Some "R&D <1>") = escapeHtml (Some ("R&D" +:+ " <1>"))
  ∧ "R&D <1>" = "R&D" +:+ " <1>".
Proof.
  split; [reflexivity|].
  exact (escapeHtml_is_injective "R&D <1>" ("R&D" +:+ " <1>") eq_refl).
Defined.

End JSMore.

Import JSMore.


Module Part000More.
Import Part000 Part000Facts.

(** ** The render, unfolded for a dataset with rows *)

Lemma updateFilterStatus_twice (searchTerm : string) (n : nat) (d : page) :
  updateFilterStatus searchTerm n (updateFilterStatus searchTerm n d)
    = updateFilterStatus searchTerm n d.
Proof.
  destruct d as [tb [[text disp]|] hd ot pl st]; unfold updateFilterStatus; simpl; [|done].
  by destruct (searching searchTerm).
Qed.

Lemma displayLeaderboard_cons (domain : string) (arg : option string)
    (d0 : row) (data : list row) (dom : string) (mode : bool) (cur : string) (d : page) :
  displayLeaderboard domain arg (State (d0 :: data) dom mode cur d)
  = let term := default cur arg in
    let valid := validData (d0 :: data) (adjustedDomain domain) term in
    let d2 := updateFilterStatus term (length valid) d in
    let s2 := State (d0 :: data) dom mode term d2 in
    match tbody d with
    | None => Threw nullTbody s2
    | Some _ =>
        match valid with
        | [] => Done (setDocument (setTbody noMatchingResults d2) s2)
        | _ :: _ =>
            match renderRows term (adjustedDomain domain)
                    (rankedRows (d0 :: data) domain term) with
            | Some trs =>
                Done (setDocument
                        (Page (Some trs) (filterStatus d2) (heading d2) (oracleToggle d2)
                           (pulse d2) true) s2)
            | None => Unmodelled
            end
        end
    end.
Proof.
  unfold displayLeaderboard, writeTbody.
  cbn [leaderboardData currentSearchTerm setCurrentSearchTerm document setDocument
       currentDomain isOracleMode].
  cbv zeta.
  generalize (validData (d0 :: data) (adjustedDomain domain) (default cur arg)).
  generalize (renderRows (default cur arg) (adjustedDomain domain)
                (rankedRows (d0 :: data) domain (default cur arg))).
  intros rows valid.
  rewrite tbody_updateFilterStatus.
  destruct valid, (tbody d) eqn:Htb; try reflexivity.
  destruct rows; [|reflexivity].
  unfold addTopPerformersStyling, setDocument, setTbody.
  cbn [document topPerformersStyles tbody filterStatus heading oracleToggle pulse
       leaderboardData currentDomain isOracleMode currentSearchTerm].
  match goal with |- context [if ?b then _ else _] => destruct b eqn:Hst end; reflexivity.
Qed.

Lemma updateFilterStatus_frame (t : string) (n : nat) (d : page) :
  tbody (updateFilterStatus t n d) = tbody d ∧
  heading (updateFilterStatus t n d) = heading d ∧
  oracleToggle (updateFilterStatus t n d) = oracleToggle d ∧
  pulse (updateFilterStatus t n d) = pulse d ∧
  topPerformersStyles (updateFilterStatus t n d) = topPerformersStyles d.
Proof.
  unfold updateFilterStatus.
  destruct (filterStatus d) as [[??]|]; [|done]. by destruct (searching t).
Qed.

Lemma updateFilterStatus_setTbody (t : string) (n : nat) (trs : list node) (d : page) :
  updateFilterStatus t n (setTbody trs d) = setTbody trs (updateFilterStatus t n d).
Proof.
  unfold updateFilterStatus.
  destruct d as [tb [[text disp]|] hd ot pl st]; cbn; [|done].
  by destruct (searching t).
Qed.

Lemma updateFilterStatus_fixed (t : string) (n : nat) (d d' : page) :
  updateFilterStatus t n d = d →
  filterStatus d' = filterStatus d →
  filterStatus (updateFilterStatus t n d') = filterStatus d.
Proof.
  unfold updateFilterStatus. intros H E. rewrite E.
  destruct (filterStatus d) as [[text disp]|] eqn:Ed; [|by rewrite E].
  destruct (searching t); apply (f_equal filterStatus) in H;
    cbn [setFilterStatus filterStatus] in *; by rewrite <- Ed.
Qed.

Lemma displayLeaderboard_twice (domain : string) (arg : option string) (s : state) :
  match displayLeaderboard domain arg s with
  | Done s' => displayLeaderboard domain arg s' = Done s'
  | Threw e s' => displayLeaderboard domain arg s' = Threw e s'
  | Unmodelled => True
  end.
Proof.
  destruct s as [data dom mode cur d].
  destruct data as [|d0 data].
  { unfold displayLeaderboard, writeTbody.
    cbn [leaderboardData document].
    destruct (tbody d) eqn:Htb; cbn [leaderboardData document setDocument tbody setTbody];
      [done|by rewrite Htb]. }
  rewrite displayLeaderboard_cons. cbv zeta.
  set (term := default cur arg).
  assert (Hterm : default term arg = term) by (by destruct arg).
  set (adjusted := adjustedDomain domain).
  set (valid := validData (d0 :: data) adjusted term).
  set (rows := renderRows term adjusted (rankedRows (d0 :: data) domain term)).
  set (d2 := updateFilterStatus term (length valid) d).
  assert (Hd2 : updateFilterStatus term (length valid) d2 = d2)
    by apply updateFilterStatus_twice.
  assert (Htb2 : tbody d2 = tbody d) by apply tbody_updateFilterStatus.
  destruct (tbody d) as [tb|] eqn:Htb.
  - destruct valid as [|v0 valid'] eqn:Hvalid.
    + unfold setDocument. cbn [leaderboardData currentDomain isOracleMode currentSearchTerm].
      rewrite displayLeaderboard_cons. cbv zeta. rewrite Hterm.
      fold adjusted. fold valid. rewrite Hvalid.
      rewrite updateFilterStatus_setTbody, Hd2.
      reflexivity.
    + destruct rows as [trs|] eqn:Hrows; [|done].
      unfold setDocument. cbn [leaderboardData currentDomain isOracleMode currentSearchTerm].
      rewrite displayLeaderboard_cons. cbv zeta. rewrite Hterm.
      fold adjusted. fold valid. rewrite Hvalid. fold rows. rewrite Hrows.
      cbn [tbody].
      f_equal. unfold setDocument.
      cbn [leaderboardData currentDomain isOracleMode currentSearchTerm]. f_equal.
      destruct (updateFilterStatus_frame term (length (v0 :: valid'))
                  (Page (Some trs) (filterStatus d2) (heading d2) (oracleToggle d2)
                     (pulse d2) true)) as (_ & -> & -> & -> & _).
      cbn [heading oracleToggle pulse]. f_equal.
      by apply (updateFilterStatus_fixed _ _ _ _ Hd2).
  - unfold setDocument. cbn [leaderboardData currentDomain isOracleMode currentSearchTerm].
    rewrite displayLeaderboard_cons. cbv zeta. rewrite Hterm.
    fold adjusted. fold valid. fold d2. rewrite Hd2, Htb2. reflexivity.
Qed.

Lemma displayLeaderboard_frame (domain : string) (arg : option string) (s : state) :
  match displayLeaderboard domain arg s with
  | Done s' | Threw _ s' =>
      leaderboardData s' = leaderboardData s ∧
      currentDomain s' = currentDomain s ∧
      isOracleMode s' = isOracleMode s ∧
      heading (document s') = heading (document s) ∧
      oracleToggle (document s') = oracleToggle (document s) ∧
      currentSearchTerm s'
        = match leaderboardData s with
          | [] => currentSearchTerm s
          | _ :: _ => default (currentSearchTerm s) arg
          end
  | Unmodelled => True
  end.
Proof.
  destruct s as [data dom mode cur [tb fs hd ot pl st]].
  unfold displayLeaderboard, writeTbody. simpl.
  destruct data as [|d0 data]; [by destruct tb|].
  assert (Hh : ∀ t n d, heading (updateFilterStatus t n d) = heading d
                        ∧ oracleToggle (updateFilterStatus t n d) = oracleToggle d).
  { intros t n d. unfold updateFilterStatus.
    destruct (filterStatus d) as [[??]|]; [|done]. by destruct (searching t). }
  destruct (validData (d0 :: data) _ _); simpl; rewrite tbody_updateFilterStatus; simpl.
  - destruct tb; simpl; by rewrite ?(proj1 (Hh _ _ _)), ?(proj2 (Hh _ _ _)).
  - destruct tb; simpl; [|by rewrite ?(proj1 (Hh _ _ _)), ?(proj2 (Hh _ _ _))].
    destruct (renderRows _ _ _); [|done].
    unfold addTopPerformersStyling. simpl.
    destruct (topPerformersStyles _); simpl;
      by rewrite ?(proj1 (Hh _ _ _)), ?(proj2 (Hh _ _ _)).
Qed.

Lemma displayLeaderboard_Threw (domain : string) (arg : option string) (s s' : state)
    (e : error) :
  displayLeaderboard domain arg s = Threw e s' → tbody (document s') = None.
Proof.
  destruct s as [data dom mode cur d]. destruct data as [|d0 data].
  - unfold displayLeaderboard, writeTbody. cbn [leaderboardData document].
    destruct (tbody d) eqn:Htb; [done|]. by intros [= _ <-].
  - rewrite displayLeaderboard_cons. cbv zeta.
    destruct (tbody d) eqn:Htb.
    + destruct (validData _ _ _); [done|]. by destruct (renderRows _ _ _).
    + intros [= _ <-]. cbn [document]. by rewrite tbody_updateFilterStatus.
Qed.

Lemma setCurrentDomain_same (s : state) : setCurrentDomain (currentDomain s) s = s.
Proof. by destruct s. Qed.

Lemma setLeaderboardData_same (s : state) : setLeaderboardData (leaderboardData s) s = s.
Proof. by destruct s. Qed.

Lemma showLoadError_frame (e : error) (s : state) :
  currentDomain (showLoadError e s) = currentDomain s ∧
  isOracleMode (showLoadError e s) = isOracleMode s ∧
  currentSearchTerm (showLoadError e s) = currentSearchTerm s ∧
  heading (document (showLoadError e s)) = heading (document s) ∧
  oracleToggle (document (showLoadError e s)) = oracleToggle (document s).
Proof. unfold showLoadError. by destruct (tbody (document s)). Qed.

Lemma showLoadError_twice (e : error) (s : state) :
  showLoadError e (showLoadError e s) = showLoadError e s.
Proof.
  unfold showLoadError. destruct (tbody (document s)) eqn:Htb; [|by rewrite Htb].
  reflexivity.
Qed.

Lemma showLoadError_None (e : error) (s : state) :
  tbody (document s) = None → showLoadError e s = s.
Proof. unfold showLoadError. by intros ->. Qed.

(** ** Renders *)

(** X2.  Rendering again changes nothing: a call of [displayLeaderboard]
    that returned, repeated with the same arguments on the state it left,
    returns and leaves that state; so do the search handlers and the
    [change] listener of the domain selector, run again with the same
    value. *)
Theorem render_is_idempotent (s s' : state) :
  (∀ domain arg,
     displayLeaderboard domain arg s = Done s' → displayLeaderboard domain arg s' = Done s') ∧
  (∀ value, onSearch value s = Done s' → onSearch value s' = Done s') ∧
  (onClearSearch s = Done s' → onClearSearch s' = Done s') ∧
  (∀ value, onDomainChange value s = Done s' → onDomainChange value s' = Done s').
Proof.
  assert (H1 : ∀ domain arg s0,
            displayLeaderboard domain arg s0 = Done s' →
            displayLeaderboard domain arg s' = Done s').
  { intros domain arg s0 H. pose proof (displayLeaderboard_twice domain arg s0) as Ht.
    by rewrite H in Ht. }
  assert (H2 : ∀ domain arg s0,
            displayLeaderboard domain arg s0 = Done s' → currentDomain s' = currentDomain s0).
  { intros domain arg s0 H. pose proof (displayLeaderboard_frame domain arg s0) as Hf.
    rewrite H in Hf. tauto. }
  split_and!.
  - intros domain arg. apply H1.
  - intros value H. unfold onSearch in *. rewrite (H2 _ _ _ H). by eapply H1.
  - intros H. unfold onClearSearch in *. rewrite (H2 _ _ _ H). by eapply H1.
  - intros value H. unfold onDomainChange in *.
    pose proof (H2 _ _ _ H) as Hd. cbn [setCurrentDomain currentDomain] in Hd.
    rewrite <- Hd, setCurrentDomain_same, Hd. by eapply H1.
Qed.

(** X2, witness. *)
Lemma render_is_idempotent_witness :
  ∃ s', onSearch "a" (Sample.state [Sample.beta; Sample.alpha]) = Done s'
        ∧ onSearch "a" s' = Done s'.
Proof.
  eexists.
  refine ((λ E, conj E (proj1 (proj2 (render_is_idempotent
                                        (Sample.state [Sample.beta; Sample.alpha]) _)) "a" E)) _).
  vm_compute. reflexivity.
Defined.


(** X4.  The status line after a render that returned: untouched when the
    dataset is empty; hidden, with its text kept, when no search is on; and
    shown with the number of rows in the table when a search is on.  When
    there are rows to show, the table body holds one element per row. *)
Theorem status_counts_the_rows (domain : string) (arg : option string) (s s' : state)
    (text display : string) :
  displayLeaderboard domain arg s = Done s' →
  filterStatus (document s) = Some (text, display) →
  let searchTerm := default (currentSearchTerm s) arg in
  let shown := rankedRows (leaderboardData s) domain searchTerm in
  filterStatus (document s')
    = Some (match leaderboardData s with
            | [] => (text, display)
            | _ :: _ =>
                if searching searchTerm then (statusText (length shown), "block")
                else (text, "none")
            end) ∧
  (shown ≠ [] → ∃ trs, tbody (document s') = Some trs ∧ length trs = length shown).
Proof.
  destruct s as [data dom mode cur [tb fs hd ot pl st]]. simpl.
  intros Hd ->. set (term := default cur arg) in *.
  assert (Hlen := length_rankedRows data domain term).
  unfold displayLeaderboard, writeTbody in Hd. simpl in Hd. fold term in Hd.
  destruct data as [|d0 data].
  { destruct tb; [|done]. injection Hd as <-. split; [done|].
    intros Hne. exfalso. apply Hne, nil_length_inv. by rewrite Hlen, validData_nil. }
  destruct (validData (d0 :: data) (adjustedDomain domain) term) as [|v0 valid] eqn:Hvalid;
    simpl in Hd; rewrite tbody_updateFilterStatus in Hd; simpl in Hd.
  - destruct tb; [|done]. injection Hd as <-. rewrite Hlen. simpl.
    unfold updateFilterStatus. simpl. split.
    + by destruct (searching term).
    + intros Hne. exfalso. by apply Hne, nil_length_inv.
  - destruct tb; [|done].
    destruct (renderRows _ _ _) as [trs|] eqn:Htrs; [|done]. injection Hd as <-.
    unfold addTopPerformersStyling, updateFilterStatus. simpl. split.
    + rewrite Hlen. destruct st, (searching term); done.
    + intros _. exists trs. split; [by destruct st, (searching term)|].
      unfold renderRows in Htrs. apply length_mapM in Htrs. by rewrite <- Htrs, length_rankedRows, Hvalid.
Qed.

(** X4, witness. *)
Lemma status_counts_the_rows_witness :
  ∃ s', displayLeaderboard "overall" (Some "a") (Sample.state [Sample.beta; Sample.alpha]) = Done s'
        ∧ filterStatus (document s') = Some (statusText 2, "block").
Proof.
  eexists.
  refine ((λ E, conj E (eq_trans (proj1 (status_counts_the_rows "overall" (Some "a")
                 (Sample.state [Sample.beta; Sample.alpha]) _ "" "none" E eq_refl)) _)) _);
    vm_compute; reflexivity.
Defined.

(** ** The search filter *)

Lemma searching_trim (t : string) : searching t = negb (String.eqb (trim t) "").
Proof.
  unfold searching. destruct (String.eqb_spec (trim t) "") as [H|H]; simpl.
  - apply andb_false_r.
  - by rewrite trim_nonempty_truthy.
Qed.

Lemma searching_same (t1 t2 : string) :
  toLowerCase (trim t1) = toLowerCase (trim t2) → searching t1 = searching t2.
Proof.
  intros H. rewrite !searching_trim. f_equal.
  destruct (String.eqb_spec (trim t1) "") as [H1|H1], (String.eqb_spec (trim t2) "") as [H2|H2];
    try done.
  - rewrite H1 in H. symmetry in H. by apply toLowerCase_empty in H.
  - rewrite H2 in H. by apply toLowerCase_empty in H.
Qed.

(** X5.  Two search terms that agree after trimming and lower-casing show
    the same rows with the same ranks, in the same order. *)
Theorem search_ignores_case_and_padding (data : list row) (domain t1 t2 : string) :
  toLowerCase (trim t1) = toLowerCase (trim t2) →
  rankedRows data domain t1 = rankedRows data domain t2.
Proof.
  intros H. pose proof (searching_same t1 t2 H) as Hs.
  unfold rankedRows, sortedData. f_equal.
  assert (Hv : validData data (adjustedDomain domain) t1
               = validData data (adjustedDomain domain) t2).
  { unfold validData. rewrite Hs. destruct (searching t2); [|done].
    apply List.filter_ext. intros e. unfold matchesSearch. by rewrite H. }
  rewrite Hv. apply sort_ext. intros a b. unfold byRankOrScore. by rewrite Hs.
Qed.

(** X5, witness. *)
Lemma search_ignores_case_and_padding_witness :
  toLowerCase (trim "  ALPHA ") = toLowerCase (trim "alpha")
  ∧ rankedRows [Sample.beta; Sample.alpha] "overall" "  ALPHA "
    = rankedRows [Sample.beta; Sample.alpha] "overall" "alpha".
Proof.
  split; [reflexivity|].
  exact (search_ignores_case_and_padding [Sample.beta; Sample.alpha] "overall"
           "  ALPHA " "alpha" eq_refl).
Defined.

(** X6.  Narrowing a search never brings a row back: when the normalised
    term of one search occurs in the normalised term of another, every row
    the longer term shows is shown, with the same rank, by the shorter one. *)
Theorem longer_term_shows_fewer_rows (data : list row) (domain t t' : string)
    (r : option nat) (e : row) :
  searching t = true →
  includes (toLowerCase (trim t')) (toLowerCase (trim t)) = true →
  (r, e) ∈ rankedRows data domain t' →
  (r, e) ∈ rankedRows data domain t.
Proof.
  intros Hs Hinc (e' & [= -> <-] & He)%elem_of_map.
  apply elem_of_map. exists e. split; [done|].
  apply elem_of_sortedData, elem_of_validData.
  apply elem_of_sortedData, elem_of_validData in He as (Hd & Hv & Hm).
  split_and!; [done..|]. intros _.
  assert (Hs' : searching t' = true).
  { rewrite searching_trim in *. apply negb_true_iff, String.eqb_neq in Hs.
    apply negb_true_iff, String.eqb_neq. intros H0. rewrite H0 in Hinc.
    simpl in Hinc. rewrite orb_false_r in Hinc.
    destruct (toLowerCase (trim t)) eqn:E; [|done].
    by apply toLowerCase_empty in E. }
  specialize (Hm Hs'). unfold matchesSearch in *.
  apply orb_true_iff in Hm as [Hm|Hm]; apply orb_true_iff; [left|right];
    by eapply includes_trans.
Qed.

(** X6, witness. *)
Lemma longer_term_shows_fewer_rows_witness :
  searching "al" = true
  ∧ includes (toLowerCase (trim "Alpha")) (toLowerCase (trim "al")) = true
  ∧ (Some 1, Sample.alpha) ∈ rankedRows [Sample.beta; Sample.alpha] "overall" "Alpha"
  ∧ (Some 1, Sample.alpha) ∈ rankedRows [Sample.beta; Sample.alpha] "overall" "al".
Proof.
  assert (H : (Some 1, Sample.alpha)
                ∈ rankedRows [Sample.beta; Sample.alpha] "overall" "Alpha").
  { apply (bool_decide_unpack _). vm_compute. exact I. }
  split_and!; [reflexivity|reflexivity|exact H|].
  exact (longer_term_shows_fewer_rows [Sample.beta; Sample.alpha] "overall" "al" "Alpha"
           _ _ eq_refl eq_refl H).
Defined.

(** ** Ranks *)

(** X7.  Every row a render shows, filtered or not, has a rank in the rank
    map: the rank cell never reads "undefined", the fallback 999 of the
    second comparator is never taken, and the rank lies between 1 and the
    number of rows with a score for the column. *)
Theorem shown_ranks_are_defined (data : list row) (domain searchTerm : string)
    (r : option nat) (e : row) :
  (r, e) ∈ rankedRows data domain searchTerm →
  ∃ n, r = Some n ∧
       1 ≤ n ≤ length (List.filter (hasScore (adjustedDomain domain)) data) ∧
       rankOr999 (originalRankMap data (adjustedDomain domain))
         (uniqueId (adjustedDomain domain) e) = n ∧
       rankText r = natToString n.
Proof.
  intros (e' & [= -> <-] & He)%elem_of_map.
  apply elem_of_sortedData, elem_of_validData in He as (Hd & Hv & _).
  destruct (originalRank_valid data _ e Hd Hv) as (n & Hn & Hb & Hr).
  exists n. rewrite Hn. split_and!; try done; try lia.
  unfold allValidData in Hb. rewrite length_sort in Hb. lia.
Qed.

(** X7, witness. *)
Lemma shown_ranks_are_defined_witness :
  (Some 1, Sample.alpha) ∈ rankedRows [Sample.beta; Sample.alpha] "overall" "a"
  ∧ ∃ n, Some 1 = Some n ∧
         1 ≤ n ≤ length (List.filter (hasScore (adjustedDomain "overall"))
                           [Sample.beta; Sample.alpha]) ∧
         rankOr999 (originalRankMap [Sample.beta; Sample.alpha] (adjustedDomain "overall"))
           (uniqueId (adjustedDomain "overall") Sample.alpha) = n ∧
         rankText (Some 1) = natToString n.
Proof.
  assert (H : (Some 1, Sample.alpha)
                ∈ rankedRows [Sample.beta; Sample.alpha] "overall" "a").
  { apply (bool_decide_unpack _). vm_compute. exact I. }
  split; [exact H|].
  exact (shown_ranks_are_defined [Sample.beta; Sample.alpha] "overall" "a" _ _ H).
Defined.

(** X8.  The sort is stable on ties: among the rows shown without a search,
    those with one and the same score stand in the order the dataset has
    them, in both variants. *)
Theorem equal_scores_keep_dataset_order (data : list row) (domain : string) (v : number) :
  List.filter (λ e, bool_decide (score (adjustedDomain domain) e = v))
    (map snd (rankedRows data domain ""))
  = List.filter (λ e, bool_decide (score (adjustedDomain domain) e = v))
      (List.filter (hasScore (adjustedDomain domain)) data) ∧
  List.filter (λ e, bool_decide (Script.score domain e = v))
    (map snd (Script.rankedRows data domain))
  = List.filter (λ e, bool_decide (Script.score domain e = v))
      (Script.validData data domain).
Proof.
  split.
  - rewrite rankedRows_unfiltered, map_map. simpl. rewrite map_id.
    unfold allValidData. apply filter_sort.
    intros a b Ha%bool_decide_eq_true Hb%bool_decide_eq_true.
    rewrite gt0_byScore, Ha, Hb. apply ltb_irrefl.
  - rewrite ScriptFacts.rankedRows_entries. unfold Script.sortedData. apply filter_sort.
    intros a b Ha%bool_decide_eq_true Hb%bool_decide_eq_true.
    unfold Script.byScore. rewrite gt0_sub, Ha, Hb. apply ltb_irrefl.
Qed.

(** ** The controls *)



(** X10.  With the flag in step with the checkbox, switching twice, by
    the container or by the checkbox in any combination, restores the mode and
    the checkbox; the second load asks for the resource of the mode the page
    started in, which is not the one the first load asked for; and the
    heading, when the page has one, reads as that mode's. *)
Theorem toggling_twice_restores_the_mode (s : state) :
  isOracleMode s = oracleToggle (document s) →
  ∀ first second,
    first = toggleHandler ∨ first = checkboxClicked →
    second = toggleHandler ∨ second = checkboxClicked →
    let s2 := (second (first s).1).1 in
    isOracleMode s2 = isOracleMode s ∧
    oracleToggle (document s2) = oracleToggle (document s) ∧
    (second (first s).1).2 = loadLeaderboard_request s ∧
    (first s).2 ≠ (second (first s).1).2 ∧
    heading (document s2) = (λ _, label (isOracleMode s)) <$> heading (document s).
Proof.
  destruct s as [data dom mode cur [tb fs hd ot pl st]]. simpl. intros ->.
  intros first second [-> | ->] [-> | ->]; simpl; destruct ot, hd; simpl; by split_and!.
Qed.

(** X10, witness. *)
Lemma toggling_twice_restores_the_mode_witness :
  isOracleMode (Sample.state []) = oracleToggle (document (Sample.state []))
  ∧ (toggleHandler (toggleHandler (Sample.state [])).1).2 = "data/benchmark_results.csv".
Proof.
  split; [reflexivity|].
  exact (eq_trans
    (proj1 (proj2 (proj2 (toggling_twice_restores_the_mode (Sample.state []) eq_refl
              toggleHandler toggleHandler (or_introl eq_refl) (or_introl eq_refl)))))
    eq_refl).
Defined.

(** X11.  When the page starts, the first load is sent before the checkbox
    is read: it asks for the plain results even if the checkbox is already
    ticked; only the flag follows the checkbox, the heading is left as it
    is, and the next load asks for the oracle results. *)
Theorem first_load_asks_for_results (s : state) :
  isOracleMode s = false →
  (domContentLoaded s).2 = "data/benchmark_results.csv" ∧
  isOracleMode (domContentLoaded s).1 = oracleToggle (document s) ∧
  heading (document (domContentLoaded s).1) = heading (document s) ∧
  (oracleToggle (document s) = true →
   loadLeaderboard_request (domContentLoaded s).1 = "data/benchmark_oracle.csv").
Proof.
  destruct s as [data dom mode cur [tb fs hd ot pl st]]. simpl. intros ->.
  split_and!; [done..|]. by intros ->.
Qed.

(** X11, witness. *)
Lemma first_load_asks_for_results_witness :
  isOracleMode (Sample.state []) = false
  ∧ (domContentLoaded (Sample.state [])).2 = "data/benchmark_results.csv".
Proof.
  split; [reflexivity|].
  exact (proj1 (first_load_asks_for_results (Sample.state []) eq_refl)).
Defined.

(** X12.  A click on the container and a click on the checkbox itself do
    the same but for the pulse: both send the same request and, once the
    timer has taken the pulse away, leave the same state.  The handler of the
    container sets the pulse; the listener of the checkbox leaves it alone. *)
Theorem container_and_checkbox_agree (s : state) :
  (toggleHandler s).2 = (checkboxClicked s).2 ∧
  pulseTimeout (toggleHandler s).1 = pulseTimeout (checkboxClicked s).1 ∧
  pulse (document (toggleHandler s).1) = true ∧
  pulse (document (checkboxClicked s).1) = pulse (document s).
Proof.
  destruct s as [data dom mode cur [tb fs hd ot pl st]].
  unfold toggleHandler, checkboxClicked, onToggleChange, updateTitle, pulseTimeout.
  cbn. by destruct hd.
Qed.

(** ** Loads *)

(** X13.  A load never ends in a throw, whatever the fetch and the parser
    do and whatever the page lacks, and it leaves the selected domain, the
    mode, the current search term, the heading and the checkbox as they
    were. *)
Theorem load_keeps_the_selection (Papa_parse : string → error + list row)
    (r : fetched) (s : state) :
  match loadLeaderboard_settle Papa_parse r s with
  | Done s' =>
      currentDomain s' = currentDomain s ∧
      isOracleMode s' = isOracleMode s ∧
      currentSearchTerm s' = currentSearchTerm s ∧
      heading (document s') = heading (document s) ∧
      oracleToggle (document s') = oracleToggle (document s)
  | Threw _ _ => False
  | Unmodelled => True
  end.
Proof.
  destruct r as [e|[] status [e|csvText]]; simpl; try apply showLoadError_frame.
  destruct (Papa_parse csvText) as [e|data]; [apply showLoadError_frame|].
  set (s1 := setLeaderboardData (List.filter keptAtLoad data) s).
  pose proof (displayLeaderboard_frame (currentDomain s) None s1) as H.
  destruct (displayLeaderboard (currentDomain s) None s1) as [s2|e s2|]; [| |exact I].
  - destruct H as (_ & ? & ? & ? & ? & Ht). split_and!; try done.
    rewrite Ht. simpl. by destruct (List.filter keptAtLoad data).
  - destruct H as (_ & ? & ? & ? & ? & Ht).
    destruct (showLoadError_frame e s2) as (-> & -> & -> & -> & ->).
    split_and!; try done.
    rewrite Ht. simpl. by destruct (List.filter keptAtLoad data).
Qed.

(** X14.  A load whose fetch and parse succeed stores the rows that have
    both names and, when the page has a table body, the current search term
    can be highlighted and there are rows to show, puts the rendered rows of
    the new dataset for the current domain and search term into the table. *)
Theorem reload_renders_the_new_rows (Papa_parse : string → error + list row)
    (status : nat) (csvText : string) (data : list row) (s : state) :
  Papa_parse csvText = inr data →
  is_Some (tbody (document s)) →
  highlightable (currentSearchTerm s) →
  rankedRows (List.filter keptAtLoad data) (currentDomain s) (currentSearchTerm s) ≠ [] →
  ∃ s' trs,
    loadLeaderboard_settle Papa_parse (Responded true status (inr csvText)) s = Done s' ∧
    leaderboardData s' = List.filter keptAtLoad data ∧
    tbody (document s') = Some trs ∧
    renderRows (currentSearchTerm s) (adjustedDomain (currentDomain s))
      (rankedRows (List.filter keptAtLoad data) (currentDomain s) (currentSearchTerm s))
    = Some trs.
Proof.
  intros Hp Htb Hh Hne. simpl. rewrite Hp.
  set (s1 := setLeaderboardData (List.filter keptAtLoad data) s).
  destruct (renderRows_is_Some (currentSearchTerm s) (adjustedDomain (currentDomain s))
              (rankedRows (List.filter keptAtLoad data) (currentDomain s)
                 (currentSearchTerm s)) Hh) as [trs Htrs].
  destruct (displayLeaderboard_rows (currentDomain s) None s1 trs) as (s' & Hd & Ht & Hl);
    [done..|].
  rewrite Hd. by exists s', trs.
Qed.

(** X14, witness. *)
Lemma reload_renders_the_new_rows_witness :
  ∃ s', loadLeaderboard_settle (λ _, inr [Sample.alpha; Sample.noModel])
          (Responded true 200 (inr "csv")) (Sample.state []) = Done s'
        ∧ leaderboardData s' = [Sample.alpha].
Proof.
  destruct (reload_renders_the_new_rows (λ _, inr [Sample.alpha; Sample.noModel]) 200 "csv"
              [Sample.alpha; Sample.noModel] (Sample.state []) eq_refl
              (ex_intro _ [] eq_refl) (λ H, False_ind _ (Bool.diff_false_true H))
              ltac:(vm_compute; discriminate))
    as (s' & trs & H1 & H2 & _).
  exists s'. split; [exact H1|exact H2].
Defined.

(** X15.  A refresh that receives what the previous load received changes
    nothing: settling a load again with the same outcome, on the state the
    first settling left, leaves that state. *)
Theorem refresh_is_idempotent (Papa_parse : string → error + list row)
    (r : fetched) (s : state) :
  match loadLeaderboard_settle Papa_parse r s with
  | Done s' => loadLeaderboard_settle Papa_parse r s' = Done s'
  | Threw _ _ => False
  | Unmodelled => True
  end.
Proof.
  destruct r as [e|[] status [e|csvText]];
    unfold loadLeaderboard_settle; try by rewrite showLoadError_twice.
  destruct (Papa_parse csvText) as [e|data] eqn:Hp.
  { by rewrite showLoadError_twice. }
  cbv zeta. set (kept := List.filter keptAtLoad data).
  change (currentDomain (setLeaderboardData kept s)) with (currentDomain s).
  set (s1 := setLeaderboardData kept s).
  pose proof (displayLeaderboard_frame (currentDomain s) None s1) as Hf.
  pose proof (displayLeaderboard_twice (currentDomain s) None s1) as Ht.
  pose proof (displayLeaderboard_Threw (currentDomain s) None s1) as Hn.
  destruct (displayLeaderboard (currentDomain s) None s1) as [s2|e s2|]; [| |exact I].
  - destruct Hf as (Hd & Hc & _).
    change (leaderboardData s1) with kept in Hd.
    change (currentDomain s1) with (currentDomain s) in Hc.
    change (currentDomain (setLeaderboardData kept s2)) with (currentDomain s2).
    rewrite <- Hd, setLeaderboardData_same, Hc. by rewrite Ht.
  - destruct Hf as (Hd & Hc & _).
    change (leaderboardData s1) with kept in Hd.
    change (currentDomain s1) with (currentDomain s) in Hc.
    rewrite (showLoadError_None e s2) by by eapply Hn.
    change (currentDomain (setLeaderboardData kept s2)) with (currentDomain s2).
    rewrite <- Hd, setLeaderboardData_same, Hc, Ht.
    by rewrite (showLoadError_None e s2) by by eapply Hn.
Qed.

(** ** Cells *)



End Part000More.

Module ScriptMore.
Import Script ScriptFacts.

Lemma script_sort_byScore_sorted (domain : string) (l : list row) :
  StronglySorted (λ a b, ltb (or0 (score domain a)) (or0 (score domain b)) = false)
    (sort (λ a b, gt0 (byScore domain a b)) l).
Proof. exact (Part000Facts.sort_byScore_sorted domain l). Qed.

Section Render.
Context {time : Type}.
Variables (Date_parse : string → option time) (toLocaleDateString : time → string).

Lemma script_displayLeaderboard_twice (domain : string) (s : state) :
  match displayLeaderboard Date_parse toLocaleDateString domain s with
  | Done s' => displayLeaderboard Date_parse toLocaleDateString domain s' = Done s'
  | Threw e s' => displayLeaderboard Date_parse toLocaleDateString domain s' = Threw e s'
  end.
Proof.
  destruct s as [data dom [tb st]]. unfold displayLeaderboard, writeTbody.
  cbn [leaderboardData document tbody].
  destruct data as [|d0 data]; [by destruct tb|].
  destruct (validData (d0 :: data) domain) eqn:Hv.
  - destruct tb; cbn [leaderboardData document tbody setTbody]; by rewrite ?Hv.
  - destruct tb; [|by cbn [leaderboardData document tbody]; rewrite Hv].
    unfold addTopPerformersStyling.
    destruct st; cbn [leaderboardData document tbody setTbody topPerformersStyles];
      by rewrite Hv.
Qed.

Lemma script_displayLeaderboard_frame (domain : string) (s : state) :
  match displayLeaderboard Date_parse toLocaleDateString domain s with
  | Done s' =>
      leaderboardData s' = leaderboardData s ∧ currentDomain s' = currentDomain s ∧
      ∃ children, tbody (document s') = Some children ∧ children ≠ []
  | Threw e s' => s' = s ∧ tbody (document s) = None
  end.
Proof.
  destruct s as [data dom [tb st]]. unfold displayLeaderboard, writeTbody.
  cbn [leaderboardData document tbody].
  destruct data as [|d0 data].
  { destruct tb; [|done]. split_and!; [done..|]. by eexists. }
  destruct (validData (d0 :: data) domain) as [|v0 valid] eqn:Hv.
  { destruct tb; [|done]. split_and!; [done..|]. by eexists. }
  destruct tb; [|done].
  assert (Hne : map (λ r, renderEntry Date_parse toLocaleDateString domain r.1 r.2)
                  (rankedRows (d0 :: data) domain) ≠ []).
  { intros H%(f_equal length). rewrite length_map in H.
    rewrite <- (length_map snd), rankedRows_entries in H.
    unfold sortedData in H. rewrite length_sort, Hv in H. done. }
  unfold addTopPerformersStyling.
  destruct st; cbn [leaderboardData currentDomain document tbody setTbody topPerformersStyles];
    split_and!; try done; by eexists.
Qed.

Lemma script_showLoadError_twice (e : error) (s : state) :
  showLoadError e (showLoadError e s) = showLoadError e s.
Proof.
  unfold showLoadError. destruct (tbody (document s)) eqn:Htb; [|by rewrite Htb].
  reflexivity.
Qed.

Lemma script_setCurrentDomain_same (s : state) : setCurrentDomain (currentDomain s) s = s.
Proof. by destruct s. Qed.

Lemma script_setLeaderboardData_same (s : state) :
  setLeaderboardData (leaderboardData s) s = s.
Proof. by destruct s. Qed.

(** X17.  In src/script.js the ranks shown are the positions 1, 2, ..., N:
    the rows shown are the rows with a score for the domain, sorted
    descending by it, and, when the page has a table body and there are such
    rows, the table holds them rendered, the first three with the classes
    rank-1, rank-2 and rank-3 and the others with none. *)
Theorem script_ranks_are_positions (data : list row) (domain : string) :
  map fst (rankedRows data domain) = seq 1 (length (validData data domain)) ∧
  map snd (rankedRows data domain) ≡ₚ validData data domain ∧
  StronglySorted (λ a b, ltb (score domain a) (score domain b) = false)
    (map snd (rankedRows data domain)) ∧
  (∀ s, leaderboardData s = data → is_Some (tbody (document s)) →
     validData data domain ≠ [] →
     ∃ s', displayLeaderboard Date_parse toLocaleDateString domain s = Done s' ∧
           tbody (document s')
             = Some (map (λ r, renderEntry Date_parse toLocaleDateString domain r.1 r.2)
                       (rankedRows data domain)) ∧
           ∀ i cls html,
             map (λ r, renderEntry Date_parse toLocaleDateString domain r.1 r.2)
               (rankedRows data domain) !! i = Some (Tr cls html) →
             cls = if (i <? 3)%nat then ["rank-" +:+ natToString (S i)] else []).
Proof.
  split_and!.
  - rewrite rankedRows_ranks. unfold sortedData. by rewrite length_sort.
  - rewrite rankedRows_entries. apply sort_perm.
  - rewrite rankedRows_entries.
    eapply StronglySorted_impl_elem; [|apply script_sort_byScore_sorted].
    intros a b Ha Hb. unfold sortedData, validData in Ha, Hb.
    rewrite elem_of_sort, elem_of_filterb in Ha, Hb.
    destruct Ha as [_ Ha], Hb as [_ Hb]. unfold hasScore in Ha, Hb.
    apply andb_true_iff in Ha as [Ha _], Hb as [Hb _].
    apply negb_true_iff in Ha, Hb. by rewrite !or0_valid.
  - intros s <- [tb Htb] Hne. destruct s as [data dom [tb0 st]].
    cbn [leaderboardData document tbody] in *. subst tb0.
    unfold displayLeaderboard, writeTbody. cbn [leaderboardData document tbody].
    destruct data as [|d0 data]; [by destruct Hne|].
    destruct (validData (d0 :: data) domain) eqn:Hv; [done|].
    eexists. split; [done|]. split.
    { unfold addTopPerformersStyling. simpl. by destruct st. }
    intros i cls html Hi.
    assert (Hr : ∃ e, rankedRows (d0 :: data) domain !! i = Some (S i, e)).
    { unfold rankedRows. 
      change (map ?f ?l) with (f <$> l) in Hi. rewrite list_lookup_fmap in Hi.
      unfold rankedRows in Hi. rewrite list_lookup_imap in Hi.
      rewrite list_lookup_imap.
      destruct (sortedData (d0 :: data) domain !! i) as [e|]; [|done]. by exists e. }
    destruct Hr as [e Hr].
    change (map ?f ?l) with (f <$> l) in Hi. rewrite list_lookup_fmap, Hr in Hi.
    simpl in Hi. injection Hi as <- _. unfold rankClass.
    destruct i as [|[|[|i]]]; done.
Qed.

(** X18.  In src/script.js rendering again changes nothing: a render that
    returned or threw, repeated on the state it left, ends the same way and
    leaves that state; so does the [change] listener of the domain selector
    run again with the same value. *)
Theorem script_render_is_idempotent (domain : string) (s : state) :
  match displayLeaderboard Date_parse toLocaleDateString domain s with
  | Done s' => displayLeaderboard Date_parse toLocaleDateString domain s' = Done s'
  | Threw e s' => displayLeaderboard Date_parse toLocaleDateString domain s' = Threw e s'
  end ∧
  match onDomainChange Date_parse toLocaleDateString domain s with
  | Done s' => onDomainChange Date_parse toLocaleDateString domain s' = Done s'
  | Threw e s' => onDomainChange Date_parse toLocaleDateString domain s' = Threw e s'
  end.
Proof.
  split; [apply script_displayLeaderboard_twice|].
  unfold onDomainChange.
  pose proof (script_displayLeaderboard_twice domain (setCurrentDomain domain s)) as Ht.
  pose proof (script_displayLeaderboard_frame domain (setCurrentDomain domain s)) as Hf.
  destruct (displayLeaderboard _ _ domain (setCurrentDomain domain s)) as [s'|e s'].
  - destruct Hf as (_ & Hc & _). cbn [setCurrentDomain currentDomain] in Hc.
    by rewrite <- Hc, script_setCurrentDomain_same, Hc.
  - destruct Hf as (-> & _).
    change (setCurrentDomain domain (setCurrentDomain domain s))
      with (setCurrentDomain domain s). exact Ht.
Qed.


(** X20.  In src/script.js a refresh that receives what the previous load
    received changes nothing. *)
Theorem script_refresh_is_idempotent (Papa_parse : string → error + list row)
    (r : fetched) (s : state) :
  loadLeaderboard_settle Date_parse toLocaleDateString Papa_parse r
    (loadLeaderboard_settle Date_parse toLocaleDateString Papa_parse r s)
  = loadLeaderboard_settle Date_parse toLocaleDateString Papa_parse r s.
Proof.
  destruct r as [e|[] status [e|csvText]]; unfold loadLeaderboard_settle;
    try apply script_showLoadError_twice.
  destruct (Papa_parse csvText) as [e|data]; [apply script_showLoadError_twice|].
  cbv zeta. set (kept := List.filter keptAtLoad data).
  change (currentDomain (setLeaderboardData kept s)) with (currentDomain s).
  set (s1 := setLeaderboardData kept s).
  pose proof (script_displayLeaderboard_frame (currentDomain s) s1) as Hf.
  pose proof (script_displayLeaderboard_twice (currentDomain s) s1) as Ht.
  destruct (displayLeaderboard _ _ (currentDomain s) s1) as [s2|e s2].
  - destruct Hf as (Hd & Hc & _).
    change (leaderboardData s1) with kept in Hd.
    change (currentDomain s1) with (currentDomain s) in Hc.
    change (currentDomain (setLeaderboardData kept s2)) with (currentDomain s2).
    rewrite <- Hd, script_setLeaderboardData_same, Hc. by rewrite Ht.
  - destruct Hf as (-> & Hn).
    assert (Hs : showLoadError e s1 = s1) by (unfold showLoadError; by rewrite Hn).
    rewrite Hs.
    change (currentDomain (setLeaderboardData kept s1)) with (currentDomain s).
    change (setLeaderboardData kept s1) with s1. by rewrite Ht.
Qed.

End Render.

(** X17, witness. *)
Lemma script_ranks_are_positions_witness :
  ∃ s', displayLeaderboard (λ _ : string, @None unit) (λ _, "") "overall"
          (Sample.scriptState [Sample.teamA]) = Done s'
        ∧ ∃ html, tbody (document s') = Some [Tr ["rank-1"] html].
Proof.
  destruct (proj2 (proj2 (proj2 (script_ranks_are_positions (λ _ : string, @None unit)
              (λ _, "") [Sample.teamA] "overall"))) (Sample.scriptState [Sample.teamA])
              eq_refl (ex_intro _ [] eq_refl) ltac:(vm_compute; discriminate))
    as (s' & H1 & H2 & _).
  exists s'. split; [exact H1|]. eexists. rewrite H2. vm_compute. reflexivity.
Defined.



End ScriptMore.
